(** * wifi_scanner.py: capture lifecycle and snapshot parser

    A shallow embedding of [src/wifi_scanner.py].  Python [str] values are
    sequences of Unicode code points; the operating system with the
    standard output, the capture tool and the two rendering collaborators
    are an interface ([OS]) over an abstract host state; the program itself
    is written in a state and exception monad that also keeps a log of what
    the program did. *)

From Stdlib Require Import String Ascii List NArith ZArith Bool Arith Lia.
Import ListNotations.

Set Implicit Arguments.

(* ================================================================== *)
(** * Python strings *)
(* ================================================================== *)

Module PyStr.

(** A [str] is a sequence of code points. *)
Definition codepoint := N.
Definition str := list codepoint.

(** ASCII literals of the source. *)
Definition lit (s : string) : str :=
  map N_of_ascii (list_ascii_of_string s).

Definition str_eq_dec : forall a b : str, {a = b} + {a <> b} :=
  list_eq_dec N.eq_dec.

(** [str.isspace] on one character, which is also the class [\s] of [re] on
    [str] patterns: the ASCII table entries and the Unicode white space. *)
Definition isspace (c : codepoint) : bool :=
  ((9 <=? c) && (c <=? 13) ||
   (28 <=? c) && (c <=? 32) ||
   (c =? 133) || (c =? 160) || (c =? 5760) ||
   (8192 <=? c) && (c <=? 8202) ||
   (c =? 8232) || (c =? 8233) || (c =? 8239) || (c =? 8287) ||
   (c =? 12288))%N.

(** [s.lstrip()], [s.rstrip()], [s.strip()]. *)
Fixpoint lstrip (s : str) : str :=
  match s with
  | [] => []
  | c :: t => if isspace c then lstrip t else s
  end.

Definition rstrip (s : str) : str := rev (lstrip (rev s)).

Definition strip (s : str) : str := rstrip (lstrip s).

(** [s.startswith(p)], returning what follows the prefix. *)
Fixpoint strip_prefix (p s : str) : option str :=
  match p, s with
  | [], _ => Some s
  | _ :: _, [] => None
  | a :: p', b :: s' => if N.eqb a b then strip_prefix p' s' else None
  end.

(** [needle in hay]. *)
Fixpoint contains (needle hay : str) : bool :=
  match strip_prefix needle hay with
  | Some _ => true
  | None => match hay with
            | [] => false
            | _ :: t => contains needle t
            end
  end.

(** The longest prefix of [s] whose characters satisfy [p], and the rest. *)
Fixpoint span (p : codepoint -> bool) (s : str) : str * str :=
  match s with
  | [] => ([], [])
  | c :: t => if p c then let (a, b) := span p t in (c :: a, b) else ([], s)
  end.

(** Truth value of a [str]: the empty string is falsy. *)
Definition truthy (s : str) : bool :=
  match s with [] => false | _ :: _ => true end.

End PyStr.
Import PyStr.

(* ================================================================== *)
(** * Regular expressions of the interface helpers *)
(* ================================================================== *)

Module Re.

Definition newline : codepoint := 10%N.

(** The lookahead [(?=Interface\s)]. *)
Definition lookahead_interface (s : str) : bool :=
  match strip_prefix (lit "Interface") s with
  | Some (c :: _) => isspace c
  | _ => false
  end.

(** [re.split(r"\n(?=Interface\s)", s)]: [cur] is the piece being read. *)
Fixpoint split_blocks_from (cur s : str) : list str :=
  match s with
  | [] => [cur]
  | c :: t =>
      if N.eqb c newline && lookahead_interface t
      then cur :: split_blocks_from [] t
      else split_blocks_from (cur ++ [c]) t
  end.

Definition split_blocks (s : str) : list str := split_blocks_from [] s.

(** [Interface\s+([^\s]+)] anchored at the head of [s]: group 1 and the
    length of the match.  Both repetitions are greedy and neither can give a
    character back to what follows, so the longest runs are the only match. *)
Definition match_interface_at (s : str) : option (str * nat) :=
  match strip_prefix (lit "Interface") s with
  | None => None
  | Some t =>
      let (ws, t1) := span isspace t in
      let (name, _) := span (fun c => negb (isspace c)) t1 in
      match ws, name with
      | _ :: _, _ :: _ => Some (name, 9 + length ws + length name)
      | _, _ => None
      end
  end.

(** [re.search(r"Interface\s+([^\s]+)", s)], giving [m.group(1)]. *)
Fixpoint search_interface (s : str) : option str :=
  match match_interface_at s with
  | Some (name, _) => Some name
  | None => match s with
            | [] => None
            | _ :: t => search_interface t
            end
  end.

(** [re.findall(r"Interface\s+([^\s]+)", s)]: [skip] characters of the last
    match are still to be passed over. *)
Fixpoint findall_interface_from (skip : nat) (s : str) : list str :=
  match s with
  | [] => []
  | _ :: t =>
      match skip with
      | S k => findall_interface_from k t
      | O =>
          match match_interface_at s with
          | Some (name, len) => name :: findall_interface_from (len - 1) t
          | None => findall_interface_from 0 t
          end
      end
  end.

Definition findall_interface (s : str) : list str :=
  findall_interface_from 0 s.

(** [([^\s]+)\s+IEEE\s+802\.11] anchored at the head of [s]. *)
Definition match_iwconfig_at (s : str) : option (str * nat) :=
  let (name, t1) := span (fun c => negb (isspace c)) s in
  let (ws1, t2) := span isspace t1 in
  match name, ws1, strip_prefix (lit "IEEE") t2 with
  | _ :: _, _ :: _, Some t3 =>
      let (ws2, t4) := span isspace t3 in
      match ws2, strip_prefix (lit "802.11") t4 with
      | _ :: _, Some _ =>
          Some (name, length name + length ws1 + 4 + length ws2 + 6)
      | _, _ => None
      end
  | _, _, _ => None
  end.

(** [re.findall(r"^([^\s]+)\s+IEEE\s+802\.11", s, re.MULTILINE)]: [bol]
    says whether the position is the start of the text or follows a line
    feed, the only places where [^] matches. *)
Fixpoint findall_iwconfig_from (skip : nat) (bol : bool) (s : str) : list str :=
  match s with
  | [] => []
  | c :: t =>
      let bol' := N.eqb c newline in
      match skip with
      | S k => findall_iwconfig_from k bol' t
      | O =>
          match (if bol then match_iwconfig_at s else None) with
          | Some (name, len) => name :: findall_iwconfig_from (len - 1) bol' t
          | None => findall_iwconfig_from 0 bol' t
          end
      end
  end.

Definition findall_iwconfig (s : str) : list str :=
  findall_iwconfig_from 0 true s.

End Re.

(* ================================================================== *)
(** * Data *)
(* ================================================================== *)

(** What is raised; [what] names it.  The failures of the calls modelled
    here ([OSError] and its [BrokenPipeError], [csv.Error], [subprocess]
    errors, errors of the report library) derive from [Exception], which is
    what every handler of the program catches.  [KeyboardInterrupt] does
    not: a SIGINT raises it while the interpreter's own handler is in place,
    that is before line 311, where the program waits in the [time.sleep] of
    line 120.  Every [try] of the program is entered after line 311 and no
    [time.sleep] lies under an [except], so a [KeyboardInterrupt] never
    meets a handler: it leaves the program as any other exception raised at
    that point does. *)
Inductive exn := PyException (what : str).

Definition exn_str (e : exn) : str := let (what) := e in what.

(** The dictionary the parser builds for one access point; its keys are
    fixed: BSSID, SSID, Channel, Privacy, Cipher, Auth, Power. *)
Record network := mkNetwork {
  BSSID : str;
  SSID : str;
  Channel : str;
  Privacy : str;
  Cipher : str;
  Auth : str;
  Power : str
}.

(** What iterating [csv.reader(f)] yields: rows, one at a time, until the
    end of the file or until reading raises. *)
Inductive csv_rows :=
| Eof
| Row (row : list str) (rest : csv_rows)
| ReadError (e : exn).

(** [rows_then rs f]: the rows [rs], then whatever [f] yields. *)
Fixpoint rows_then (rs : list (list str)) (f : csv_rows) : csv_rows :=
  match rs with
  | [] => f
  | r :: rs' => Row r (rows_then rs' f)
  end.

(** [subprocess.CompletedProcess]. *)
Record completed := mkCompleted {
  returncode : Z;
  stdout : str;
  stderr : str
}.

(** The first argument of [subprocess.run]: an argument vector, or a
    command line when [shell=True]. *)
Inductive command :=
| Argv (args : list str)
| ShellLine (line : str).

Definition pid := N.

(** The answer of a call that may raise. *)
Inductive reply (A : Type) :=
| Returns (a : A)
| Throws (e : exn).
Arguments Throws {A} e.

(* ================================================================== *)
(** * The host *)
(* ================================================================== *)

(** Everything outside the program: the operating system with its network
    interfaces, processes, files, standard output, clock and signals, and
    the two rendering collaborators.  Each call receives the host state and gives the next one
    back, so the host may change between and during calls, as it does while
    the capture tool rewrites its file. *)
Class OS (Host : Type) := {
  (** [subprocess.run(cmd, shell=..., stdout=PIPE, stderr=PIPE, text=True)] *)
  os_run : command -> Host -> reply completed * Host;
  (** [subprocess.Popen(cmd, ..., preexec_fn=os.setsid)], giving [.pid] *)
  os_popen : list str -> Host -> reply pid * Host;
  (** [os.getpgid(pid)] *)
  os_getpgid : pid -> Host -> reply N * Host;
  (** [os.killpg(pgid, signal.SIGTERM)] *)
  os_killpg : N -> Host -> reply unit * Host;
  (** [os.path.exists(path)] *)
  os_path_exists : str -> Host -> bool * Host;
  (** [open(path, newline="", encoding="utf-8", errors="ignore")] and
      [csv.reader] on it *)
  os_open_csv : str -> Host -> reply csv_rows * Host;
  (** [os.makedirs(path, exist_ok=True)] *)
  os_makedirs : str -> Host -> reply unit * Host;
  (** [datetime.now().strftime(format)] *)
  os_strftime : str -> Host -> str * Host;
  (** [time.sleep(seconds)]; it raises what a signal handler that runs
      during the wait raises, [KeyboardInterrupt] for a SIGINT under the
      interpreter's own handler *)
  os_sleep : N -> Host -> reply unit * Host;
  (** [print(text)] to the standard output, which may be a closed pipe *)
  os_print : str -> Host -> reply unit * Host;
  (** [signal.signal(signal.SIGINT, on_sigint)] *)
  os_install_sigint : Host -> Host;
  (** has SIGINT been delivered to the installed handler since this was
      last asked *)
  os_sigint_delivered : Host -> bool * Host;
  (** the body of [print_live_table] *)
  os_live_table : list network -> Host -> reply unit * Host;
  (** the body of [generate_pdf] *)
  os_report : list network -> str -> str -> Host -> reply unit * Host
}.

(* ================================================================== *)
(** * Program state and the monad *)
(* ================================================================== *)

(** The functions of the program whose invocations are logged. *)
Inductive fn :=
| Fn_get_wifi_interface
| Fn_enable_monitor_mode
| Fn_disable_monitor_mode
| Fn_start_airodump
| Fn_stop_airodump
| Fn_parse_airodump_csv
| Fn_on_sigint.

Definition fn_eq_dec : forall a b : fn, {a = b} + {a <> b}.
Proof. decide equality. Defined.

(** What the program does to the outside, in order. *)
Inductive event :=
| EvCall (f : fn)                     (* a function of the program is entered *)
| EvRun (cmd : command)               (* subprocess.run *)
| EvPopen (cmd : list str)            (* subprocess.Popen *)
| EvGetpgid (p : pid)
| EvKillpg (pgid : N)
| EvExists (path : str)               (* os.path.exists *)
| EvOpen (path : str)                 (* open *)
| EvMakedirs (path : str)
| EvSleep (seconds : N)
| EvPrint (text : str)                (* print *)
| EvLiveTable (networks : list network)           (* print_live_table *)
| EvReport (networks : list network) (folder iface : str). (* generate_pdf *)

(** The module-level variables. *)
Record globals := mkGlobals {
  running : bool;
  airodump_proc : option pid;
  interface_used : option str;
  output_dir : option str;
  csv_path : option str
}.

(** The values at import time (lines 28-32). *)
Definition initial_globals : globals :=
  mkGlobals true None None None None.

Record state (Host : Type) := mkState {
  host : Host;
  glob : globals;
  log : list event
}.

(** How a computation ends: with a value, with an exception, or not yet
    (the scan loop is still running when the iteration bound is reached). *)
Inductive outcome (A : Type) :=
| Ok (a : A)
| Raised (e : exn)
| Unfinished.
Arguments Raised {A} e.
Arguments Unfinished {A}.

Definition M (Host A : Type) := state Host -> outcome A * state Host.

Section Monad.
Context {Host : Type}.

Definition ret {A} (a : A) : M Host A := fun st => (Ok a, st).

Definition bind {A B} (m : M Host A) (k : A -> M Host B) : M Host B :=
  fun st =>
    match m st with
    | (Ok a, st') => k a st'
    | (Raised e, st') => (Raised e, st')
    | (Unfinished, st') => (Unfinished, st')
    end.

Definition raise {A} (e : exn) : M Host A := fun st => (Raised e, st).

(** [try: body / except Exception as e: handler(e)] *)
Definition try_except {A} (body : M Host A) (handler : exn -> M Host A)
  : M Host A :=
  fun st =>
    match body st with
    | (Raised e, st') => handler e st'
    | r => r
    end.

(** [try: body / finally: cleanup]: the cleanup runs when the body returns
    and when it raises, and the body's exception is raised again after it
    unless the cleanup raises itself. *)
Definition try_finally {A} (body : M Host A) (cleanup : M Host unit)
  : M Host A :=
  fun st =>
    match body st with
    | (Ok a, st') => bind cleanup (fun _ => ret a) st'
    | (Raised e, st') => bind cleanup (fun _ => raise e) st'
    | (Unfinished, st') => (Unfinished, st')
    end.

Definition emit (ev : event) : M Host unit :=
  fun st => (Ok tt, mkState (host st) (glob st) (log st ++ [ev])).

Definition get_globals : M Host globals :=
  fun st => (Ok (glob st), st).

Definition set_globals (g : globals) : M Host unit :=
  fun st => (Ok tt, mkState (host st) g (log st)).

(** A host call that cannot raise. *)
Definition ask {A} (f : Host -> A * Host) : M Host A :=
  fun st => let (a, h) := f (host st) in (Ok a, mkState h (glob st) (log st)).

(** A host call that may raise. *)
Definition call {A} (f : Host -> reply A * Host) : M Host A :=
  fun st =>
    let (r, h) := f (host st) in
    let st' := mkState h (glob st) (log st) in
    match r with
    | Returns a => (Ok a, st')
    | Throws e => (Raised e, st')
    end.

Definition tell (f : Host -> Host) : M Host unit :=
  fun st => (Ok tt, mkState (f (host st)) (glob st) (log st)).

End Monad.

Declare Scope py_scope.
Delimit Scope py_scope with py.
Notation "x <- m ;; k" := (bind m (fun x => k))
  (at level 61, m at next level, right associativity) : py_scope.
Notation "m ;; k" := (bind m (fun _ => k))
  (at level 61, right associativity) : py_scope.
Open Scope py_scope.

(* ================================================================== *)
(** * The program *)
(* ================================================================== *)

Section Program.
Context {Host : Type} {os : OS Host}.

Local Abbreviation M := (M Host).

(** ** Configuration (lines 23-25) *)

Definition BASE_DIR : str :=
  lit "/home/dheeraj/Documents/PROJECTS/Wi-Fi Security Analysis/wifi_logs".
Definition REFRESH_SEC : N := 3.
Definition AIRO_BANDS : list str := [lit "bg"].

(** [print(text)]: the attempt is logged, then the text is written. *)
Definition print (text : str) : M unit :=
  emit (EvPrint text) ;;
  call (os_print text).

(** [os.path.join(a, *p)] of [posixpath]. *)
Fixpoint path_join (a : str) (p : list str) : str :=
  match p with
  | [] => a
  | b :: p' =>
      match strip_prefix (lit "/") b with
      | Some _ => path_join b p'
      | None =>
          match a, strip_prefix (lit "/") (rev a) with
          | [], _ | _, Some _ => path_join (a ++ b) p'
          | _, None => path_join (a ++ lit "/" ++ b) p'
          end
      end
  end.

(** ** Interface helpers (lines 38-104) *)

Definition run_cmd (cmd : command) (check : bool) : M completed :=
  emit (EvRun cmd) ;;
  res <- call (os_run cmd) ;;
  if check && negb (Z.eqb (returncode res) 0)
  then raise (PyException (lit "CalledProcessError"))
  else ret res.

Definition iw_dev : command := Argv [lit "iw"; lit "dev"].

Definition detect_interfaces_iwdev : M (list str) :=
  res <- run_cmd iw_dev false ;;
  ret (Re.findall_interface (stdout res)).

Definition detect_interfaces_iwconfig : M (list str) :=
  res <- run_cmd (ShellLine (lit "iwconfig 2>/dev/null")) false ;;
  ret (Re.findall_iwconfig (stdout res)).

(** The [for blk in blocks] loop of [get_wifi_interface]. *)
Fixpoint first_monitor_interface (blocks : list str) : option str :=
  match blocks with
  | [] => None
  | blk :: rest =>
      if contains (lit "type monitor") blk
      then match Re.search_interface blk with
           | Some name => Some name
           | None => first_monitor_interface rest
           end
      else first_monitor_interface rest
  end.

Definition get_wifi_interface : M (option str) :=
  emit (EvCall Fn_get_wifi_interface) ;;
  res <- run_cmd iw_dev false ;;
  let blocks := Re.split_blocks (strip (stdout res)) in
  match first_monitor_interface blocks with
  | Some name => ret (Some name)
  | None =>
      devs <- detect_interfaces_iwdev ;;
      match devs with
      | d :: _ => ret (Some d)
      | [] =>
          cfg <- detect_interfaces_iwconfig ;;
          match cfg with
          | c :: _ => ret (Some c)
          | [] => ret None
          end
      end
  end.

(** The test of line 82 over the blocks of the [iw dev] output. *)
Definition reports_monitor (iface out : str) : bool :=
  existsb
    (fun blk => contains (lit "Interface " ++ iface) blk
                && contains (lit "type monitor") blk)
    (Re.split_blocks (strip out)).

Definition sudo_ip_link_set (iface updown : str) : command :=
  Argv [lit "sudo"; lit "ip"; lit "link"; lit "set"; iface; updown].

Definition sudo_iw_set (iface : str) (what : list str) : command :=
  Argv ([lit "sudo"; lit "iw"; iface; lit "set"] ++ what).

Definition note_already (iface : str) : str :=
  [9989%N] ++ lit " " ++ iface ++ lit " already in monitor mode".

Definition note_enabling (iface : str) : str :=
  [9881%N; 65039%N] ++ lit " Enabling monitor mode on " ++ iface ++ lit "...".

Definition enable_monitor_mode (iface : str) : M str :=
  emit (EvCall Fn_enable_monitor_mode) ;;
  res <- run_cmd iw_dev false ;;
  if reports_monitor iface (stdout res)
  then
    print (note_already iface) ;;
    ret iface
  else
    print (note_enabling iface) ;;
    run_cmd (sudo_ip_link_set iface (lit "down")) false ;;
    res <- run_cmd (sudo_iw_set iface [lit "type"; lit "monitor"]) false ;;
    (if negb (Z.eqb (returncode res) 0)
     then run_cmd (sudo_iw_set iface [lit "monitor"; lit "none"]) false ;;
          ret tt
     else ret tt) ;;
    run_cmd (sudo_ip_link_set iface (lit "up")) false ;;
    print ([9989%N] ++ lit " Monitor mode enabled on " ++ iface) ;;
    ret iface.

Definition disable_monitor_mode (iface : str) : M unit :=
  emit (EvCall Fn_disable_monitor_mode) ;;
  print ([128260%N] ++ lit " Restoring managed mode on " ++ iface
         ++ lit "...") ;;
  run_cmd (sudo_ip_link_set iface (lit "down")) false ;;
  run_cmd (sudo_iw_set iface [lit "type"; lit "managed"]) false ;;
  run_cmd (sudo_ip_link_set iface (lit "up")) false ;;
  print ([9989%N] ++ lit " Managed mode restored on " ++ iface).

(** ** Airodump helpers (lines 110-129) *)

Definition set_airodump_proc (p : option pid) : M unit :=
  g <- get_globals ;;
  set_globals (mkGlobals (running g) p (interface_used g) (output_dir g)
                         (csv_path g)).

Definition airodump_cmd (iface out_prefix : str) : list str :=
  [lit "sudo"; lit "airodump-ng"; lit "-w"; out_prefix;
   lit "--output-format"; lit "csv"; iface]
  ++ flat_map (fun band => [lit "--band"; band]) AIRO_BANDS.

Definition start_airodump (iface out_prefix : str) : M unit :=
  emit (EvCall Fn_start_airodump) ;;
  let cmd := airodump_cmd iface out_prefix in
  emit (EvPopen cmd) ;;
  p <- call (os_popen cmd) ;;
  set_airodump_proc (Some p) ;;
  emit (EvSleep 2) ;;
  call (os_sleep 2).

Definition stop_airodump : M unit :=
  emit (EvCall Fn_stop_airodump) ;;
  g <- get_globals ;;
  match airodump_proc g with
  | Some p =>
      try_except
        (emit (EvGetpgid p) ;;
         pgid <- call (os_getpgid p) ;;
         emit (EvKillpg pgid) ;;
         call (os_killpg pgid))
        (fun _ => ret tt) ;;
      set_airodump_proc None
  | None => ret tt
  end.

(** ** CSV parsing, AP section only (lines 135-180) *)

(** [row[i]] for an index known to be in range. *)
Definition field (row : list str) (i : nat) : str := nth i row [].

(** [x or "Hidden"] *)
Definition or_hidden (x : str) : str :=
  if truthy x then x else lit "Hidden".

(** Lines 162-177: the dictionary built from an accepted row. *)
Definition network_of_row (row : list str) : network :=
  let bssid := strip (field row 0) in
  let ch := strip (field row 3) in
  let priv := strip (field row 5) in
  let cipher := strip (field row 6) in
  let auth := strip (field row 7) in
  let pwr := strip (field row 8) in
  let essid := or_hidden (strip (field row 13)) in
  {| BSSID := bssid; SSID := essid; Channel := ch; Privacy := priv;
     Cipher := cipher; Auth := auth; Power := pwr |}.

(** Lines 148-177: the [for row in reader] loop.  It gives the list [nets]
    as the loop leaves it, and the exception that ended it if one did: what
    was appended before an exception stays in the list. *)
Fixpoint read_rows (reader : csv_rows) (ap_header_seen : bool)
    (nets : list network) : list network * option exn :=
  match reader with
  | Eof => (nets, None)
  | ReadError e => (nets, Some e)
  | Row row rest =>
      match row with
      | [] => read_rows rest ap_header_seen nets
      | f0 :: _ =>
          let first := strip f0 in
          if str_eq_dec first (lit "BSSID") then read_rows rest true nets
          else if str_eq_dec first (lit "Station MAC") then (nets, None)
          else if ap_header_seen && (13 <? length row)
          then read_rows rest ap_header_seen (nets ++ [network_of_row row])
          else read_rows rest ap_header_seen nets
      end
  end.

(** The argument is [None] or a [str]; line 141 asks the file system only
    when it is a non-empty [str]. *)
Definition parse_airodump_csv (ap_csv_path : option str) : M (list network) :=
  emit (EvCall Fn_parse_airodump_csv) ;;
  let nets := [] in
  match ap_csv_path with
  | None => ret nets
  | Some p =>
      if negb (truthy p) then ret nets
      else
        emit (EvExists p) ;;
        ex <- ask (os_path_exists p) ;;
        if negb ex then ret nets
        else
          (* try: ... except Exception: pass *)
          try_except
            (emit (EvOpen p) ;;
             reader <- call (os_open_csv p) ;;
             ret (fst (read_rows reader false nets)))
            (fun _ => ret nets)
  end.

(** ** Live view and report (lines 186-274): the collaborators *)

Definition print_live_table (networks : list network) : M unit :=
  emit (EvLiveTable networks) ;;
  call (os_live_table networks).

Definition generate_pdf (networks : list network) (folder iface : str)
  : M unit :=
  emit (EvReport networks folder iface) ;;
  call (os_report networks folder iface).

(** ** Signal handling (lines 280-283) *)

Definition set_running (b : bool) : M unit :=
  g <- get_globals ;;
  set_globals (mkGlobals b (airodump_proc g) (interface_used g)
                         (output_dir g) (csv_path g)).

Definition on_sigint : M unit :=
  emit (EvCall Fn_on_sigint) ;;
  set_running false ;;
  print ([10%N; 128721%N] ++ lit " Stopping scan" ++ [8230%N]
         ++ lit " Generating report" ++ [8230%N]).

(** The handler runs between two steps of the main thread.  What the
    program reads of its effect is the flag [running] at the test of the
    [while]; the model lets the handler run at that test for every SIGINT
    delivered since the previous one, and what its [print] raises is raised
    there.  The loop spends its time in the sleep of line 319, which this
    test follows at once: an exception of the handler during the sleep
    leaves the loop from the same place. *)
Definition deliver_sigint : M unit :=
  d <- ask os_sigint_delivered ;;
  if d then on_sigint else ret tt.

(** ** Main (lines 289-343) *)

(** Lines 315-319: one turn of the scan loop. *)
Definition scan_iteration (csv : str) : M unit :=
  emit (EvExists csv) ;;
  ex <- ask (os_path_exists csv) ;;
  (if ex
   then nets <- parse_airodump_csv (Some csv) ;;
        match nets with
        | _ :: _ => print_live_table nets
        | [] => ret tt
        end
   else ret tt) ;;
  emit (EvSleep REFRESH_SEC) ;;
  call (os_sleep REFRESH_SEC).

(** Lines 314-319: [while running: ...], for at most [fuel] tests of the
    flag. *)
Fixpoint scan_loop (fuel : nat) (csv : str) : M unit :=
  match fuel with
  | O => fun st => (Unfinished, st)
  | S fuel' =>
      deliver_sigint ;;
      g <- get_globals ;;
      if running g
      then scan_iteration csv ;; scan_loop fuel' csv
      else ret tt
  end.

Definition note_no_networks : str :=
  [8505%N; 65039%N] ++ lit " No networks captured; PDF not generated.".

Definition note_done : str := [9989%N] ++ lit " Done.".

(** Lines 323-331: the final parse and the report. *)
Definition report_step (csv out_dir iface : str) : M unit :=
  try_except
    (emit (EvExists csv) ;;
     ex <- ask (os_path_exists csv) ;;
     if ex
     then nets <- parse_airodump_csv (Some csv) ;;
          match nets with
          | _ :: _ => generate_pdf nets out_dir iface
          | [] => print note_no_networks
          end
     else ret tt)
    (fun e => print ([9888%N; 65039%N] ++ lit " Failed to generate PDF: "
                     ++ exn_str e)).

(** Lines 332-336: always try to restore managed mode. *)
Definition restore_step (iface : str) : M unit :=
  try_except (disable_monitor_mode iface) (fun _ => ret tt).

(** Lines 321-337: the [finally] block. *)
Definition finalize (csv out_dir iface : str) : M unit :=
  stop_airodump ;;
  report_step csv out_dir iface ;;
  restore_step iface ;;
  print note_done.

Definition set_output_dir (d : str) : M unit :=
  g <- get_globals ;;
  set_globals (mkGlobals (running g) (airodump_proc g) (interface_used g)
                         (Some d) (csv_path g)).

Definition set_interface_used (i : str) : M unit :=
  g <- get_globals ;;
  set_globals (mkGlobals (running g) (airodump_proc g) (Some i)
                         (output_dir g) (csv_path g)).

Definition set_csv_path (p : str) : M unit :=
  g <- get_globals ;;
  set_globals (mkGlobals (running g) (airodump_proc g) (interface_used g)
                         (output_dir g) (Some p)).

(** [main]; the names [interface_used], [output_dir] and [csv_path] are
    assigned here and nowhere else, so the model keeps the assigned values
    at hand besides storing them. *)
Definition main (fuel : nat) : M unit :=
  date_folder <- ask (os_strftime (lit "%d-%m-%Y")) ;;
  time_folder <- ask (os_strftime (lit "%I:%M %p")) ;;
  let out_dir := path_join BASE_DIR [date_folder; time_folder] in
  set_output_dir out_dir ;;
  emit (EvMakedirs out_dir) ;;
  call (os_makedirs out_dir) ;;
  let out_prefix := path_join out_dir [lit "scan"] in
  iface <- get_wifi_interface ;;
  match iface with
  | None => print ([10060%N] ++ lit " No Wi-Fi interface found.")
  | Some [] => print ([10060%N] ++ lit " No Wi-Fi interface found.")
  | Some iface =>
      used <- enable_monitor_mode iface ;;
      set_interface_used used ;;
      start_airodump used out_prefix ;;
      let csv := out_prefix ++ lit "-01.csv" in
      set_csv_path csv ;;
      print ([128269%N] ++ lit " Scanning on " ++ used ++ [8230%N]
             ++ lit " Results will be saved in:" ++ [10%N] ++ lit "   "
             ++ out_dir) ;;
      tell os_install_sigint ;;
      try_finally (scan_loop fuel csv) (finalize csv out_dir used)
  end.

(** Lines 340-343: the script. *)
Definition script (fuel : nat) : M unit :=
  emit (EvMakedirs BASE_DIR) ;;
  call (os_makedirs BASE_DIR) ;;
  main fuel.

End Program.

(* ================================================================== *)
(** * The texts of the live view and the tallies of the charts *)
(* ================================================================== *)

(** ** Live terminal view (lines 188-195) *)

(** ["{:<w}".format(s)]: [s] with spaces added on the right up to the width
    [w]; a longer [s] is kept whole. *)
Definition ljust (w : nat) (s : str) : str :=
  s ++ repeat 32%N (w - length s).

(** ["{:<20} {:<28} {:<7} {:<8} {:<7} {:<5}".format(...)] *)
Definition live_table_format (c1 c2 c3 c4 c5 c6 : str) : str :=
  ljust 20 c1 ++ lit " " ++ ljust 28 c2 ++ lit " " ++ ljust 7 c3 ++ lit " "
  ++ ljust 8 c4 ++ lit " " ++ ljust 7 c5 ++ lit " " ++ ljust 5 c6.

(** Lines 192-194: the line of one network, its name cut to 28
    characters. *)
Definition live_table_row (n : network) : str :=
  live_table_format (BSSID n) (firstn 28 (SSID n)) (Channel n) (Privacy n)
                    (Auth n) (Power n).

(** What [print_live_table] passes to [print], call after call. *)
Definition live_table_texts (networks : list network) : list str :=
  [[128225%N] ++ lit " Live Wi-Fi Scan Results" ++ [10%N];
   live_table_format (lit "BSSID") (lit "SSID") (lit "CH") (lit "Privacy")
                     (lit "Auth") (lit "PWR");
   repeat 45%N 80]
  ++ map live_table_row (firstn 80 networks)
  ++ [[10%N] ++ lit "Press CTRL+C to stop & generate PDF report."].

(** ** Encryption tally of the charts (line 221) *)

(** One more occurrence of [k] in a [Counter], a dictionary that keeps its
    keys in the order of their first insertion. *)
Fixpoint counter_add (k : str) (c : list (str * nat)) : list (str * nat) :=
  match c with
  | [] => [(k, 1)]
  | (k', n) :: c' =>
      if str_eq_dec k k' then (k', S n) :: c'
      else (k', n) :: counter_add k c'
  end.

(** [Counter(l)] *)
Definition counter (l : list str) : list (str * nat) :=
  fold_left (fun c k => counter_add k c) l [].

(** [c[k]]: a key that is missing counts zero. *)
Fixpoint counter_get (c : list (str * nat)) (k : str) : nat :=
  match c with
  | [] => 0
  | (k', n) :: c' => if str_eq_dec k k' then n else counter_get c' k
  end.

(** [Counter([n["Privacy"] for n in networks if n.get("Privacy")])] *)
Definition priv_counts (networks : list network) : list (str * nat) :=
  counter (filter truthy (map Privacy networks)).

(* ================================================================== *)
(** * A simulated host *)
(* ================================================================== *)

(** A small host on which the program can be run: wireless interfaces with
    their modes, mode changes that work or are refused, a capture tool that
    starts or not, files with what reading them yields, a SIGINT that arrives
    after a number of turns of the scan loop, and a report collaborator that
    works or raises. *)
Module Sim.

Record sim := mkSim {
  ifaces : list (str * bool);            (* name, in monitor mode *)
  mode_change_works : bool;
  popen_works : bool;
  files : list (str * reply csv_rows);   (* path, what opening it gives *)
  sigint_after : option nat;             (* tests of the flag before SIGINT *)
  report_works : bool
}.

Definition tab : str := [9%N].
Definition nl : str := [10%N].

(** The output of [iw dev], one block per interface. *)
Definition render_iface (i : str * bool) : str :=
  lit "phy#0" ++ nl ++ tab ++ lit "Interface " ++ fst i ++ nl
  ++ tab ++ tab ++ lit "ifindex 3" ++ nl
  ++ tab ++ tab ++ lit "type " ++ (if snd i then lit "monitor" else lit "managed")
  ++ nl.

Definition render_iw_dev (l : list (str * bool)) : str :=
  flat_map render_iface l.

Definition set_mode (name : str) (mon : bool) (l : list (str * bool))
  : list (str * bool) :=
  map (fun i => if str_eq_dec (fst i) name then (name, mon) else i) l.

(** [sudo iw <iface> set type monitor], [... set monitor none] and
    [... set type managed]: the interface and the mode asked for. *)
Definition iw_set_request (args : list str) : option (str * bool) :=
  match args with
  | [a0; a1; name; a3; a4; a5] =>
      if list_eq_dec str_eq_dec [a0; a1; a3] [lit "sudo"; lit "iw"; lit "set"]
      then
        if list_eq_dec str_eq_dec [a4; a5] [lit "type"; lit "monitor"]
        then Some (name, true)
        else if list_eq_dec str_eq_dec [a4; a5] [lit "monitor"; lit "none"]
        then Some (name, true)
        else if list_eq_dec str_eq_dec [a4; a5] [lit "type"; lit "managed"]
        then Some (name, false)
        else None
      else None
  | _ => None
  end.

Definition with_ifaces (h : sim) (l : list (str * bool)) : sim :=
  mkSim l (mode_change_works h) (popen_works h) (files h) (sigint_after h)
        (report_works h).

Definition with_sigint (h : sim) (s : option nat) : sim :=
  mkSim (ifaces h) (mode_change_works h) (popen_works h) (files h) s
        (report_works h).

Definition done (rc : Z) (out : str) : reply completed :=
  Returns (mkCompleted rc out []).

Definition run (cmd : command) (h : sim) : reply completed * sim :=
  match cmd with
  | ShellLine _ => (done 0 [], h)
  | Argv args =>
      if list_eq_dec str_eq_dec args [lit "iw"; lit "dev"]
      then (done 0 (render_iw_dev (ifaces h)), h)
      else
        match iw_set_request args with
        | Some (name, mon) =>
            if mode_change_works h
            then (done 0 [], with_ifaces h (set_mode name mon (ifaces h)))
            else (done 1 [], h)
        | None => (done 0 [], h)
        end
  end.

Fixpoint lookup_file (p : str) (l : list (str * reply csv_rows))
  : option (reply csv_rows) :=
  match l with
  | [] => None
  | (q, f) :: l' => if str_eq_dec p q then Some f else lookup_file p l'
  end.

Definition path_exists (p : str) (h : sim) : bool * sim :=
  match lookup_file p (files h) with
  | Some _ => (true, h)
  | None => (false, h)
  end.

Definition open_csv (p : str) (h : sim) : reply csv_rows * sim :=
  match lookup_file p (files h) with
  | Some f => (f, h)
  | None => (Throws (PyException (lit "FileNotFoundError")), h)
  end.

Definition popen (cmd : list str) (h : sim) : reply pid * sim :=
  if popen_works h then (Returns 4242%N, h)
  else (Throws (PyException (lit "OSError")), h).

Definition sigint_delivered (h : sim) : bool * sim :=
  match sigint_after h with
  | Some O => (true, with_sigint h None)
  | Some (S k) => (false, with_sigint h (Some k))
  | None => (false, h)
  end.

Definition report (nets : list network) (folder iface : str) (h : sim)
  : reply unit * sim :=
  if report_works h then (Returns tt, h)
  else (Throws (PyException (lit "PermissionError")), h).

#[export] Instance sim_os : OS sim := {
  os_run := run;
  os_popen := popen;
  os_getpgid := fun p h => (Returns p, h);
  os_killpg := fun _ h => (Returns tt, h);
  os_path_exists := path_exists;
  os_open_csv := open_csv;
  os_makedirs := fun _ h => (Returns tt, h);
  os_strftime := fun fmt h =>
    (if str_eq_dec fmt (lit "%d-%m-%Y") then lit "04-11-2026"
     else lit "07:25 AM", h);
  os_sleep := fun _ h => (Returns tt, h);
  os_print := fun _ h => (Returns tt, h);
  os_install_sigint := fun h => h;
  os_sigint_delivered := sigint_delivered;
  os_live_table := fun _ h => (Returns tt, h);
  os_report := report
}.

(** The snapshot file of a run on this host. *)
Definition capture_csv : str :=
  path_join (path_join BASE_DIR [lit "04-11-2026"; lit "07:25 AM"])
            [lit "scan"] ++ lit "-01.csv".

Definition wlan0 : str := lit "wlan0".

(** Rows as the capture tool writes them. *)
Definition ap_header : list str :=
  [lit "BSSID"; lit " First time seen"; lit " Last time seen"; lit " channel";
   lit " Speed"; lit " Privacy"; lit " Cipher"; lit " Authentication";
   lit " Power"; lit " # beacons"; lit " # IV"; lit " LAN IP";
   lit " ID-length"; lit " ESSID"; lit " Key"].

Definition ap_row (bssid essid : string) : list str :=
  [lit bssid; lit " 2026-11-04 07:25:01"; lit " 2026-11-04 07:25:09";
   lit "  6"; lit "  54"; lit " WPA2"; lit " CCMP"; lit " PSK"; lit " -45";
   lit "       10"; lit "        0"; lit "   0.  0.  0.  0"; lit "   4";
   lit essid; lit " "].

Definition short_row : list str :=
  [lit "AA:BB:CC:00:00:09"; lit " 2026-11-04 07:25:01"; lit " 2026-11"].

Definition station_header : list str :=
  [lit "Station MAC"; lit " First time seen"; lit " Last time seen";
   lit " Power"; lit " # packets"; lit " BSSID"; lit " Probed ESSIDs"].

Definition station_row : list str :=
  [lit "11:22:33:44:55:66"; lit " 2026-11-04 07:25:02";
   lit " 2026-11-04 07:25:08"; lit " -60"; lit "       12";
   lit " AA:BB:CC:00:00:01"; lit ""].

(** A host with one managed interface and nothing captured yet. *)
Definition fresh : sim :=
  mkSim [(wlan0, false)] true true [] (Some 2) true.

Definition with_files (h : sim) (l : list (str * reply csv_rows)) : sim :=
  mkSim (ifaces h) (mode_change_works h) (popen_works h) l (sigint_after h)
        (report_works h).

Definition start (h : sim) : state sim := mkState h initial_globals [].

Definition os_error : exn := PyException (lit "OSError").

(** Two access points, the second with an undisclosed name. *)
Definition home : list str := ap_row "AA:BB:CC:00:00:01" " Home".
Definition cafe : list str := ap_row " AA:BB:CC:00:00:02 " "   ".

(** A snapshot file with both tables and a truncated row. *)
Definition two_table_file : csv_rows :=
  rows_then [[]; ap_header; home; short_row; cafe; station_header;
             station_row] Eof.

(** A snapshot file the reading of which fails after the first row. *)
Definition failing_file : csv_rows :=
  rows_then [ap_header; home] (ReadError os_error).

(** A snapshot file in which one access point is listed twice. *)
Definition repeated_file : csv_rows :=
  rows_then [ap_header; home; home] Eof.

(** A snapshot file with the header of the AP table and no row under it. *)
Definition empty_table_file : csv_rows :=
  rows_then [[]; ap_header; []; station_header] Eof.

Definition capturing (f : csv_rows) : sim :=
  with_files fresh [(capture_csv, Returns f)].

(** A host on which both syntaxes of the mode change are refused. *)
Definition stubborn : sim :=
  mkSim [(wlan0, false)] false true [] (Some 2) true.

(** A host on which the capture tool cannot be started. *)
Definition no_capture : sim :=
  mkSim [(wlan0, false)] true false [] (Some 2) true.

(** A host with a snapshot of two access points on which the report
    collaborator raises. *)
Definition no_report : sim :=
  mkSim [(wlan0, false)] true true [(capture_csv, Returns two_table_file)]
        (Some 2) false.

Definition scan_folder : str :=
  path_join BASE_DIR [lit "04-11-2026"; lit "07:25 AM"].

(** The program state when the scan loop is entered on the host [h]. *)
Definition scanning (h : sim) : state sim :=
  mkState h
    (mkGlobals true (Some 4242%N) (Some wlan0) (Some scan_folder)
               (Some capture_csv))
    [].

(** A host whose only interface, wlan0mon, is in monitor mode. *)
Definition renamed : sim :=
  mkSim [(lit "wlan0mon", true)] true true [] (Some 2) true.

(** A host with a managed interface and another one in monitor mode. *)
Definition two_interfaces : sim :=
  mkSim [(wlan0, false); (lit "wlan1", true)] true true [] (Some 2) true.


(** The program state at import time on a host with the snapshot [f]. *)
Definition on_file (f : csv_rows) : state sim := start (capturing f).

(** ** A standard output that closes, and an early interrupt *)

(** The host [inner] behind a standard output that takes [prints_left] more
    texts before its reader goes away, after which writing to it raises
    [BrokenPipeError]; with [early_sigint], a SIGINT arrives during the next
    wait and finds the interpreter's own handler. *)
Record rough := mkRough {
  inner : sim;
  prints_left : nat;
  early_sigint : bool
}.

Definition broken_pipe : exn := PyException (lit "BrokenPipeError").
Definition keyboard_interrupt : exn := PyException (lit "KeyboardInterrupt").

Definition lift {A : Type} (f : sim -> A * sim) (h : rough) : A * rough :=
  let (a, s) := f (inner h) in (a, mkRough s (prints_left h) (early_sigint h)).

Definition rough_print (text : str) (h : rough) : reply unit * rough :=
  match prints_left h with
  | O => (Throws broken_pipe, h)
  | S k => (Returns tt, mkRough (inner h) k (early_sigint h))
  end.

Definition rough_sleep (seconds : N) (h : rough) : reply unit * rough :=
  if early_sigint h
  then (Throws keyboard_interrupt, mkRough (inner h) (prints_left h) false)
  else (Returns tt, h).

(** [generate_pdf] writes the report and ends with a [print] (line 274). *)
Definition rough_report (nets : list network) (folder iface : str) (h : rough)
  : reply unit * rough :=
  match lift (report nets folder iface) h with
  | (Returns _, h') => rough_print [] h'
  | (Throws e, h') => (Throws e, h')
  end.

#[export] Instance rough_os : OS rough := {
  os_run := fun cmd => lift (run cmd);
  os_popen := fun cmd => lift (popen cmd);
  os_getpgid := fun p h => (Returns p, h);
  os_killpg := fun _ h => (Returns tt, h);
  os_path_exists := fun p => lift (path_exists p);
  os_open_csv := fun p => lift (open_csv p);
  os_makedirs := fun _ h => (Returns tt, h);
  os_strftime := fun fmt => lift (os_strftime fmt);
  os_sleep := rough_sleep;
  os_print := rough_print;
  os_install_sigint := fun h => h;
  os_sigint_delivered := lift sigint_delivered;
  os_live_table := fun _ h => rough_print [] h;
  os_report := rough_report
}.

(** The host [h] with a standard output that takes [n] more texts. *)
Definition piped (n : nat) (h : sim) : rough := mkRough h n false.

(** The host [h] on which a SIGINT arrives during the first wait. *)
Definition hasty (h : sim) : rough := mkRough h 100 true.

(** The program state at import time on the host [h]. *)
Definition rough_start (h : rough) : state rough :=
  mkState h initial_globals [].

End Sim.

#[global] Existing Instance Sim.sim_os.
#[global] Existing Instance Sim.rough_os.

(* ================================================================== *)
(** * Vocabulary of the statements *)
(* ================================================================== *)

(** ** Strings *)

Definition all_space (s : str) : bool := forallb isspace s.

Definition head_not_space (t : str) : Prop :=
  match t with
  | [] => True
  | c :: _ => isspace c = false
  end.

(** [t] is [s] without its surrounding white space: [s] is [t] between two
    runs of white space, and [t] neither starts nor ends with white space. *)
Definition trimmed_from (s t : str) : Prop :=
  exists l r,
    s = l ++ t ++ r /\ all_space l = true /\ all_space r = true /\
    head_not_space t /\ head_not_space (rev t).

(** ** Rows *)

(** The first field of the row, trimmed, is [tok]. *)
Definition first_is (tok : str) (row : list str) : bool :=
  match row with
  | [] => false
  | f0 :: _ => if str_eq_dec (strip f0) tok then true else false
  end.

Definition is_ap_header : list str -> bool := first_is (lit "BSSID").
Definition is_station_header : list str -> bool := first_is (lit "Station MAC").

(** A row that is neither of the two header rows. *)
Definition is_data_row (row : list str) : bool :=
  negb (is_ap_header row) && negb (is_station_header row).

(** The rows of the access-point table that have at least 14 fields, in the
    order of the file: the data rows after an AP-table header and before the
    station-table header or the point where reading fails.  [in_table] says
    whether an AP-table header has been passed. *)
Fixpoint accepted_rows (f : csv_rows) (in_table : bool) : list (list str) :=
  match f with
  | Eof => []
  | ReadError _ => []
  | Row row rest =>
      if is_station_header row then []
      else if is_ap_header row then accepted_rows rest true
      else if in_table && (14 <=? length row)
      then row :: accepted_rows rest in_table
      else accepted_rows rest in_table
  end.

(** ** Logs *)

Definition is_call (f : fn) (ev : event) : bool :=
  match ev with
  | EvCall g => if fn_eq_dec f g then true else false
  | _ => false
  end.

(** How many times the function [f] of the program was entered. *)
Definition calls (f : fn) (l : list event) : nat :=
  length (filter (is_call f) l).

(** The arguments of the calls of [print_live_table], in order. *)
Definition live_tables (l : list event) : list (list network) :=
  flat_map (fun ev => match ev with EvLiveTable n => [n] | _ => [] end) l.

(** The arguments of the calls of [generate_pdf], in order. *)
Definition reports (l : list event) : list (list network * str * str) :=
  flat_map (fun ev => match ev with
                      | EvReport n d i => [(n, d, i)]
                      | _ => []
                      end) l.

(** The texts given to [print], in order. *)
Definition prints (l : list event) : list str :=
  flat_map (fun ev => match ev with EvPrint t => [t] | _ => [] end) l.

(** The commands run that change the mode or the link state of an
    interface: every [subprocess.run] other than the query [iw dev] and the
    query [iwconfig]. *)
Definition is_mode_change (ev : event) : bool :=
  match ev with
  | EvRun (Argv (a0 :: _)) => if str_eq_dec a0 (lit "sudo") then true else false
  | _ => false
  end.

Definition mode_changes (l : list event) : list event :=
  filter is_mode_change l.

(** The state [st] after the host has become [h] and the events [evs] have
    been logged; the module-level variables are as in [st]. *)
Definition logged {Host : Type} (st : state Host) (h : Host)
    (evs : list event) : state Host :=
  mkState h (glob st) (log st ++ evs).

(** How a call of the host that may raise ends in the program. *)
Definition outcome_of {A : Type} (r : reply A) : outcome A :=
  match r with
  | Returns a => Ok a
  | Throws e => Raised e
  end.

(** The standard output takes every text: no [print] raises. *)
Definition stdout_works {Host : Type} {os : OS Host} : Prop :=
  forall (text : str) (h : Host), fst (os_print text h) = Returns tt.

(** File-system accesses. *)
Definition is_fs_access (ev : event) : bool :=
  match ev with
  | EvExists _ | EvOpen _ | EvMakedirs _ => true
  | _ => false
  end.

(* ================================================================== *)
(** * Trimming *)
(* ================================================================== *)

(** Events other than the two cleanup calls. *)
Definition calm (ev : event) : Prop :=
  match ev with
  | EvCall f => f <> Fn_stop_airodump /\ f <> Fn_disable_monitor_mode
  | _ => True
  end.

(** Events other than the cleanup calls, the calls of the collaborators and
    the two closing notes. *)
Definition quiet (ev : event) : Prop :=
  match ev with
  | EvCall f => f <> Fn_stop_airodump /\ f <> Fn_disable_monitor_mode
  | EvLiveTable _ | EvReport _ _ _ => False
  | EvPrint t => t <> note_no_networks /\ t <> note_done
  | _ => True
  end.

(** [m] logs only events that satisfy [P], however it ends. *)
Definition adds {Host A : Type} (P : event -> Prop) (m : M Host A) : Prop :=
  forall st, exists evs, log (snd (m st)) = log st ++ evs /\ Forall P evs.

(** [m] always ends, with a value or an exception. *)
Definition finishes {Host A : Type} (m : M Host A) : Prop :=
  forall st, fst (m st) <> Unfinished.

(** How a run of [main] from [st] goes: it ends during the initialization,
    without any cleanup call, or it is the [try] / [finally] of the scan
    loop and the cleanup, entered in a state [st0] reached without any
    cleanup call. *)
Definition leaves_or_scans {Host : Type} {os : OS Host} (fuel : nat)
    (st : state Host) (res : outcome unit * state Host) : Prop :=
  (fst res <> Unfinished
   /\ exists evs, log (snd res) = log st ++ evs /\ Forall calm evs)
  \/ (exists st0 csv folder iface evs,
         res = try_finally (scan_loop fuel csv) (finalize csv folder iface) st0
         /\ log st0 = log st ++ evs /\ Forall calm evs).

(** What a look at the snapshot file gives in the state [st], as the scan
    loop and the shutdown take it (lines 315-316 and 324-325): nothing when
    the file does not exist, and what the parser returns when it does. *)
Definition snapshot_at {Host : Type} {os : OS Host} (csv : str)
    (st : state Host) : option (list network) :=
  let (ex, h) := os_path_exists csv (host st) in
  if ex
  then match fst (parse_airodump_csv (Some csv) (logged st h [EvExists csv])) with
       | Ok nets => Some nets
       | _ => None
       end
  else None.

(** What the shutdown does with the final snapshot (lines 326-329). *)
Definition report_or_note (snap : option (list network)) (folder iface : str)
  : list event :=
  match snap with
  | Some (n :: l) => [EvReport (n :: l) folder iface]
  | Some [] => [EvPrint note_no_networks]
  | None => []
  end.

(** What one turn of the scan loop forwards to the live view (lines
    317-318). *)
Definition forwarded (snap : option (list network)) : list (list network) :=
  match snap with
  | Some (n :: l) => [n :: l]
  | _ => []
  end.

Unset Implicit Arguments.

(** ** More vocabulary *)

(** The rows a reader yields before it ends or fails. *)
Fixpoint stream_rows (f : csv_rows) : list (list str) :=
  match f with
  | Row row rest => row :: stream_rows rest
  | _ => []
  end.

(** The file cut after its first [n] rows. *)
Fixpoint cut_at (n : nat) (f : csv_rows) : csv_rows :=
  match n, f with
  | S k, Row row rest => Row row (cut_at k rest)
  | _, _ => Eof
  end.

(** A string without surrounding white space. *)
Definition is_trimmed (s : str) : Prop := strip s = s.

(** A record all of whose fields are trimmed and whose name is not empty. *)
Definition tidy (r : network) : Prop :=
  is_trimmed (BSSID r) /\ is_trimmed (SSID r) /\ is_trimmed (Channel r)
  /\ is_trimmed (Privacy r) /\ is_trimmed (Cipher r) /\ is_trimmed (Auth r)
  /\ is_trimmed (Power r) /\ SSID r <> [].

(** An interface name as the detection gives it: not empty, no white
    space. *)
Definition is_name (s : str) : Prop :=
  s <> [] /\ forallb (fun c => negb (isspace c)) s = true.

(** ["\n".join(blocks)] *)
Fixpoint join_lines (blocks : list str) : str :=
  match blocks with
  | [] => []
  | [b] => b
  | b :: rest => b ++ [Re.newline] ++ join_lines rest
  end.

(** No line of the text after the first starts with "Interface" and a white
    space. *)
Fixpoint no_interface_line (s : str) : bool :=
  match s with
  | [] => true
  | c :: t =>
      negb (N.eqb c Re.newline && Re.lookahead_interface t)
      && no_interface_line t
  end.

(** ** The output of [iw dev] *)









(** ** Messages *)

Definition note_restoring (iface : str) : str :=
  [128260%N] ++ lit " Restoring managed mode on " ++ iface ++ lit "...".

Definition note_restored (iface : str) : str :=
  [9989%N] ++ lit " Managed mode restored on " ++ iface.


Definition note_no_interface : str :=
  [10060%N] ++ lit " No Wi-Fi interface found.".

(** The collaborators are given at least one record. *)
Definition forwards_records (ev : event) : Prop :=
  match ev with
  | EvLiveTable [] | EvReport [] _ _ => False
  | _ => True
  end.

(** The capture tool is started with [cmd]. *)
Definition popens (l : list event) : list (list str) :=
  flat_map (fun ev => match ev with EvPopen c => [c] | _ => [] end) l.

(** The total of a tally. *)
Definition tally_total (c : list (str * nat)) : nat :=
  fold_right (fun kn acc => snd kn + acc) 0 c.

(** Closes goals about explicit lists of events. *)
Ltac quiet_solve :=
  repeat match goal with
         | |- Forall _ _ => constructor
         | |- quiet _ => simpl
         | |- calm _ => simpl
         | |- _ /\ _ => split
         | |- True => exact I
         | |- _ = _ => reflexivity
         | |- _ <> _ => let E := fresh "E" in intro E; cbv in E; discriminate E
         end.

Section Trimming.

Lemma lstrip_split (s : str) :
  exists l, s = l ++ lstrip s /\ all_space l = true /\ head_not_space (lstrip s).
Proof.
  induction s as [|c t IH]; simpl.
  - exists []. repeat split.
  - destruct (isspace c) eqn:Hc.
    + destruct IH as (l & Hs & Hl & Hh).
      exists (c :: l). simpl. rewrite Hc, Hl. repeat split; [|exact Hh].
      f_equal. exact Hs.
    + exists []. simpl. repeat split. exact Hc.
Qed.

Lemma all_space_rev (l : str) : all_space (rev l) = all_space l.
Proof.
  unfold all_space. induction l as [|c l IH]; simpl; [reflexivity|].
  rewrite forallb_app, IH. simpl. rewrite andb_true_r. apply andb_comm.
Qed.

Lemma rstrip_split (s : str) :
  exists r, s = rstrip s ++ r /\ all_space r = true /\
            head_not_space (rev (rstrip s)).
Proof.
  unfold rstrip. destruct (lstrip_split (rev s)) as (l & Hs & Hl & Hh).
  exists (rev l). rewrite rev_involutive, all_space_rev. repeat split; trivial.
  rewrite <- rev_app_distr, <- Hs, rev_involutive. reflexivity.
Qed.

Lemma head_not_space_prefix (t r : str) :
  head_not_space (t ++ r) -> head_not_space t.
Proof. destruct t; simpl; trivial. Qed.

Lemma strip_trimmed (s : str) : trimmed_from s (strip s).
Proof.
  unfold strip.
  destruct (lstrip_split s) as (l & Hs & Hl & Hh).
  destruct (rstrip_split (lstrip s)) as (r & Hu & Hr & Ht).
  exists l, r. repeat split; trivial.
  - rewrite <- Hu. exact Hs.
  - apply head_not_space_prefix with r. rewrite <- Hu. exact Hh.
Qed.

Lemma lstrip_all_space (s : str) : all_space s = true -> lstrip s = [].
Proof.
  unfold all_space. induction s as [|c t IH]; simpl; [reflexivity|].
  destruct (isspace c); simpl; [exact IH | discriminate].
Qed.

Lemma strip_all_space (s : str) : all_space s = true -> strip s = [].
Proof.
  intros H. unfold strip. rewrite (lstrip_all_space _ H). reflexivity.
Qed.

Lemma lstrip_not_all_space (s : str) :
  all_space s = false -> lstrip s <> [].
Proof.
  unfold all_space. induction s as [|c t IH]; simpl; [discriminate|].
  destruct (isspace c); simpl; [exact IH | discriminate].
Qed.

Lemma all_space_app (a b : str) :
  all_space (a ++ b) = all_space a && all_space b.
Proof. apply forallb_app. Qed.

Lemma strip_not_all_space (s : str) :
  all_space s = false -> truthy (strip s) = true.
Proof.
  intros H. destruct (strip_trimmed s) as (l & r & Hs & Hl & Hr & _).
  destruct (strip s) as [|c t]; [|reflexivity].
  rewrite Hs, !all_space_app, Hl, Hr in H. discriminate.
Qed.

(** What [x.strip() or "Hidden"] is, by the content of [x]. *)
Lemma or_hidden_strip (s : str) :
  if all_space s then or_hidden (strip s) = lit "Hidden"
  else or_hidden (strip s) = strip s.
Proof.
  destruct (all_space s) eqn:H; unfold or_hidden.
  - rewrite (strip_all_space _ H). reflexivity.
  - rewrite (strip_not_all_space _ H). reflexivity.
Qed.

End Trimming.

(* ================================================================== *)
(** * The row loop *)
(* ================================================================== *)

Section Rows.

Local Arguments Nat.leb : simpl never.
Local Arguments Nat.ltb : simpl never.
Local Arguments length : simpl never.

Lemma rows_then_app (a b : list (list str)) (f : csv_rows) :
  rows_then (a ++ b) f = rows_then a (rows_then b f).
Proof. induction a as [|r a IH]; simpl; [reflexivity | now rewrite IH]. Qed.

Lemma header_tokens_differ : lit "BSSID" <> lit "Station MAC".
Proof. discriminate. Qed.

(** The loop appends, to what it was given, one record for each accepted
    row, in the order of the file. *)
Lemma read_rows_accepted (f : csv_rows) :
  forall seen nets,
    fst (read_rows f seen nets)
    = nets ++ map network_of_row (accepted_rows f seen).
Proof.
  induction f as [|row rest IH|e]; intros seen nets; simpl;
    try (now rewrite app_nil_r).
  destruct row as [|f0 fs].
  - simpl. replace (14 <=? length (@nil str)) with false by reflexivity.
    rewrite andb_false_r. apply IH.
  - unfold is_station_header, is_ap_header, first_is.
    destruct (str_eq_dec (strip f0) (lit "BSSID")) as [Hb|Hb].
    + destruct (str_eq_dec (strip f0) (lit "Station MAC")) as [Hs|Hs].
      * exfalso. apply header_tokens_differ. now rewrite <- Hb, <- Hs.
      * apply IH.
    + destruct (str_eq_dec (strip f0) (lit "Station MAC")) as [Hs|Hs].
      * simpl. now rewrite app_nil_r.
      * change (13 <? length (f0 :: fs)) with (14 <=? length (f0 :: fs)).
        destruct (seen && (14 <=? length (f0 :: fs))).
        -- rewrite IH, <- app_assoc. reflexivity.
        -- apply IH.
Qed.

(** A failure of the reader ends the loop as the end of the file does. *)
Lemma accepted_rows_until_error (rows : list (list str)) (e : exn) :
  forall b,
    accepted_rows (rows_then rows (ReadError e)) b
    = accepted_rows (rows_then rows Eof) b.
Proof.
  induction rows as [|r rows IH]; intros b; simpl; [reflexivity|].
  now rewrite !IH.
Qed.

(** Rows that do not end the table split the accepted rows in two. *)
Lemma accepted_rows_prefix (pre : list (list str)) (f : csv_rows) :
  forall b,
    forallb (fun r => negb (is_station_header r)) pre = true ->
    accepted_rows (rows_then pre f) b
    = accepted_rows (rows_then pre Eof) b
      ++ accepted_rows f (b || existsb is_ap_header pre).
Proof.
  induction pre as [|r pre IH]; intros b H; simpl in *.
  - now rewrite orb_false_r.
  - apply andb_prop in H. destruct H as [Hr Hpre].
    apply negb_true_iff in Hr. rewrite Hr.
    destruct (is_ap_header r) eqn:Hh.
    + rewrite (IH true Hpre). simpl. now rewrite orb_true_r.
    + simpl. destruct (b && (14 <=? length r)).
      * simpl. f_equal. apply IH, Hpre.
      * apply IH, Hpre.
Qed.

Lemma accepted_rows_before_table (pre : list (list str)) :
  forallb is_data_row pre = true ->
  accepted_rows (rows_then pre Eof) false = []
  /\ existsb is_ap_header pre = false
  /\ forallb (fun r => negb (is_station_header r)) pre = true.
Proof.
  induction pre as [|r pre IH]; simpl; intros H; [repeat split|].
  apply andb_prop in H. destruct H as [Hr Hpre].
  unfold is_data_row in Hr. apply andb_prop in Hr. destruct Hr as [Ha Hs].
  apply negb_true_iff in Ha. apply negb_true_iff in Hs.
  rewrite Ha, Hs. simpl. apply IH, Hpre.
Qed.

Lemma accepted_rows_in_table (aps : list (list str)) :
  forallb (fun r => is_data_row r && (14 <=? length r)) aps = true ->
  accepted_rows (rows_then aps Eof) true = aps
  /\ existsb is_ap_header aps = false
  /\ forallb (fun r => negb (is_station_header r)) aps = true.
Proof.
  induction aps as [|r aps IH]; simpl; intros H; [repeat split|].
  apply andb_prop in H. destruct H as [Hr Haps].
  apply andb_prop in Hr. destruct Hr as [Hd Hlen].
  unfold is_data_row in Hd. apply andb_prop in Hd. destruct Hd as [Ha Hs].
  apply negb_true_iff in Ha. apply negb_true_iff in Hs.
  rewrite Ha, Hs, Hlen. simpl.
  destruct (IH Haps) as (H1 & H2 & H3). rewrite H1. repeat split; trivial.
Qed.

Lemma accepted_rows_short (bad : list str) (f : csv_rows) :
  is_station_header bad = false -> length bad < 14 ->
  accepted_rows (Row bad f) true = accepted_rows f true.
Proof.
  intros Hs Hlen. simpl. rewrite Hs.
  destruct (is_ap_header bad); [reflexivity|].
  apply Nat.leb_gt in Hlen. now rewrite Hlen.
Qed.

End Rows.

(* ================================================================== *)
(** * The snapshot parser *)
(* ================================================================== *)

Section Parser.
Context {Host : Type} {os : OS Host}.

Implicit Types (st : state Host) (p : str).

(** The four ways a call of the parser on a non-empty path goes. *)

Lemma parse_no_path st :
  parse_airodump_csv None st
  = (Ok [], logged st (host st) [EvCall Fn_parse_airodump_csv]).
Proof. reflexivity. Qed.

Lemma parse_empty_path st :
  parse_airodump_csv (Some []) st
  = (Ok [], logged st (host st) [EvCall Fn_parse_airodump_csv]).
Proof. reflexivity. Qed.

Lemma parse_absent st p h1 :
  truthy p = true ->
  os_path_exists p (host st) = (false, h1) ->
  parse_airodump_csv (Some p) st
  = (Ok [], logged st h1 [EvCall Fn_parse_airodump_csv; EvExists p]).
Proof.
  intros Hp Hex. unfold parse_airodump_csv, bind, emit, ask, ret, logged.
  simpl. rewrite Hp. simpl. rewrite Hex. simpl.
  now rewrite <- app_assoc.
Qed.

Lemma parse_open_fails st p h1 h2 e :
  truthy p = true ->
  os_path_exists p (host st) = (true, h1) ->
  os_open_csv p h1 = (Throws e, h2) ->
  parse_airodump_csv (Some p) st
  = (Ok [], logged st h2 [EvCall Fn_parse_airodump_csv; EvExists p; EvOpen p]).
Proof.
  intros Hp Hex Hop.
  unfold parse_airodump_csv, bind, try_except, emit, ask, call, ret, logged.
  simpl. rewrite Hp. simpl. rewrite Hex. simpl. rewrite Hop. simpl.
  now rewrite <- !app_assoc.
Qed.

Lemma parse_reads st p h1 h2 reader :
  truthy p = true ->
  os_path_exists p (host st) = (true, h1) ->
  os_open_csv p h1 = (Returns reader, h2) ->
  parse_airodump_csv (Some p) st
  = (Ok (map network_of_row (accepted_rows reader false)),
     logged st h2 [EvCall Fn_parse_airodump_csv; EvExists p; EvOpen p]).
Proof.
  intros Hp Hex Hop.
  unfold parse_airodump_csv, bind, try_except, emit, ask, call, ret, logged.
  simpl. rewrite Hp. simpl. rewrite Hex. simpl. rewrite Hop. simpl.
  rewrite read_rows_accepted. simpl. now rewrite <- !app_assoc.
Qed.

(** The parser always returns a list, whatever the path and the host. *)
Lemma parse_returns (path : option str) st :
  exists nets evs h,
    parse_airodump_csv path st = (Ok nets, logged st h evs)
    /\ Forall quiet evs
    /\ calls Fn_parse_airodump_csv evs = 1.
Proof.
  destruct path as [p|].
  2:{ eexists _, _, _. rewrite parse_no_path. quiet_solve. }
  destruct (truthy p) eqn:Hp.
  2:{ destruct p; [|discriminate]. eexists _, _, _.
      rewrite parse_empty_path. quiet_solve. }
  destruct (os_path_exists p (host st)) as [ex h1] eqn:Hex.
  destruct ex.
  2:{ eexists _, _, _. rewrite (parse_absent _ _ _ Hp Hex). quiet_solve. }
  destruct (os_open_csv p h1) as [[reader|e] h2] eqn:Hop.
  - eexists _, _, _. rewrite (parse_reads _ _ _ _ _ Hp Hex Hop). quiet_solve.
  - eexists _, _, _. rewrite (parse_open_fails _ _ _ _ _ Hp Hex Hop).
    quiet_solve.
Qed.

End Parser.

(* ================================================================== *)
(** * Properties of the snapshot parser *)
(* ================================================================== *)

Section ParserProperties.
Context {Host : Type} {os : OS Host}.

Implicit Types (st : state Host) (p : str).

Local Arguments Nat.leb : simpl never.
Local Arguments length : simpl never.

Lemma ap_header_not_station (row : list str) :
  is_ap_header row = true -> is_station_header row = false.
Proof.
  unfold is_ap_header, is_station_header, first_is.
  destruct row as [|f0 fs]; [discriminate|].
  destruct (str_eq_dec (strip f0) (lit "BSSID")) as [Hb|]; [|discriminate].
  intros _. destruct (str_eq_dec (strip f0) (lit "Station MAC")) as [Hs|];
    [|reflexivity].
  exfalso. apply header_tokens_differ. now rewrite <- Hb, <- Hs.
Qed.

(** The accepted rows of a file laid out as the capture tool writes it. *)
Lemma accepted_rows_two_tables
    (pre aps1 aps2 stations : list (list str)) (hdr bad sta : list str)
    (tail : csv_rows) :
  forallb is_data_row pre = true ->
  is_ap_header hdr = true ->
  forallb (fun r => is_data_row r && (14 <=? length r)) (aps1 ++ aps2) = true ->
  is_station_header bad = false -> length bad < 14 ->
  is_station_header sta = true ->
  accepted_rows
    (rows_then (pre ++ hdr :: aps1 ++ bad :: aps2 ++ sta :: stations) tail)
    false
  = aps1 ++ aps2.
Proof.
  intros Hpre Hhdr Haps Hbad Hlen Hsta.
  rewrite forallb_app in Haps. apply andb_prop in Haps.
  destruct Haps as [Ha1 Ha2].
  destruct (accepted_rows_before_table pre Hpre) as (P1 & P2 & P3).
  destruct (accepted_rows_in_table aps1 Ha1) as (A1 & A2 & A3).
  destruct (accepted_rows_in_table aps2 Ha2) as (B1 & B2 & B3).
  rewrite rows_then_app, (accepted_rows_prefix pre _ false P3), P1, P2.
  cbn [rows_then accepted_rows app orb].
  rewrite (ap_header_not_station hdr Hhdr), Hhdr.
  rewrite rows_then_app, (accepted_rows_prefix aps1 _ true A3), A1.
  cbn [rows_then orb].
  rewrite (accepted_rows_short bad _ Hbad Hlen).
  rewrite rows_then_app, (accepted_rows_prefix aps2 _ true B3), B1.
  cbn [rows_then accepted_rows orb]. rewrite Hsta.
  now rewrite app_nil_r.
Qed.

(** C3 (amended): the parser is total and never raises.  For a path that
    does not exist, and for a file whose opening raises, it returns the empty
    snapshot; when reading raises part-way, it returns the records of the
    rows accepted before the failure, which may be none, and does not
    propagate the exception. *)
Theorem parse_never_raises :
  forall st (path : option str),
    (exists nets, fst (parse_airodump_csv path st) = Ok nets) /\
    (forall p h1,
        path = Some p -> os_path_exists p (host st) = (false, h1) ->
        fst (parse_airodump_csv path st) = Ok []) /\
    (forall p h1 h2 e,
        path = Some p -> os_path_exists p (host st) = (true, h1) ->
        os_open_csv p h1 = (Throws e, h2) ->
        fst (parse_airodump_csv path st) = Ok []) /\
    (forall p h1 h2 rows e,
        path = Some p -> p <> [] ->
        os_path_exists p (host st) = (true, h1) ->
        os_open_csv p h1 = (Returns (rows_then rows (ReadError e)), h2) ->
        fst (parse_airodump_csv path st)
        = Ok (map network_of_row (accepted_rows (rows_then rows Eof) false))).
Proof.
  intros st path. split; [|split; [|split]].
  - destruct (parse_returns path st) as (nets & evs & h & H & _).
    exists nets. now rewrite H.
  - intros p h1 -> Hex. destruct p as [|c p]; [reflexivity|].
    now rewrite (parse_absent st (c :: p) h1 eq_refl Hex).
  - intros p h1 h2 e -> Hex Hop. destruct p as [|c p]; [reflexivity|].
    now rewrite (parse_open_fails st (c :: p) h1 h2 e eq_refl Hex Hop).
  - intros p h1 h2 rows e -> Hp Hex Hop. destruct p as [|c p]; [easy|].
    rewrite (parse_reads st (c :: p) h1 h2 _ eq_refl Hex Hop).
    simpl. now rewrite accepted_rows_until_error.
Qed.

(** C4: for a file made of rows before the AP table, the AP-table header,
    N rows of at least 14 fields, one row of fewer than 14 fields among
    them, the station-table header and the station rows, the parser returns
    exactly the N records of the well-formed rows, in the order of the
    file. *)
Theorem parse_ap_table_boundary :
  forall st p (pre aps1 aps2 stations : list (list str))
         (hdr bad sta : list str) (tail : csv_rows) h1 h2,
    truthy p = true ->
    os_path_exists p (host st) = (true, h1) ->
    os_open_csv p h1
    = (Returns (rows_then (pre ++ hdr :: aps1 ++ bad :: aps2
                               ++ sta :: stations) tail), h2) ->
    forallb is_data_row pre = true ->
    is_ap_header hdr = true ->
    forallb (fun r => is_data_row r && (14 <=? length r)) (aps1 ++ aps2)
    = true ->
    is_station_header bad = false -> length bad < 14 ->
    is_station_header sta = true ->
    exists nets,
      fst (parse_airodump_csv (Some p) st) = Ok nets
      /\ nets = map network_of_row (aps1 ++ aps2)
      /\ length nets = length aps1 + length aps2.
Proof.
  intros st p pre aps1 aps2 stations hdr bad sta tail h1 h2
         Hp Hex Hop Hpre Hhdr Haps Hbad Hlen Hsta.
  exists (map network_of_row (aps1 ++ aps2)).
  rewrite (parse_reads st p h1 h2 _ Hp Hex Hop). cbn [fst].
  rewrite (accepted_rows_two_tables pre aps1 aps2 stations hdr bad sta tail
             Hpre Hhdr Haps Hbad Hlen Hsta).
  repeat split. now rewrite length_map, length_app.
Qed.

(** C5: a row accepted in the AP table gives one record, whose BSSID,
    channel, privacy, cipher, authentication and power are the fields 0, 3,
    5, 6, 7 and 8 of the row without their surrounding white space, and
    whose SSID is field 13 without its surrounding white space, or "Hidden"
    when that field is empty or all white space. *)
Theorem parse_extracts_fields :
  forall st p (pre : list (list str)) (row : list str) (rest : csv_rows)
         h1 h2,
    truthy p = true ->
    os_path_exists p (host st) = (true, h1) ->
    os_open_csv p h1 = (Returns (rows_then pre (Row row rest)), h2) ->
    existsb is_ap_header pre = true ->
    forallb (fun r => negb (is_station_header r)) pre = true ->
    is_data_row row = true ->
    14 <= length row ->
    exists before r after,
      fst (parse_airodump_csv (Some p) st) = Ok (before ++ r :: after)
      /\ before = map network_of_row (accepted_rows (rows_then pre Eof) false)
      /\ trimmed_from (field row 0) (BSSID r)
      /\ trimmed_from (field row 3) (Channel r)
      /\ trimmed_from (field row 5) (Privacy r)
      /\ trimmed_from (field row 6) (Cipher r)
      /\ trimmed_from (field row 7) (Auth r)
      /\ trimmed_from (field row 8) (Power r)
      /\ (if all_space (field row 13) then SSID r = lit "Hidden"
          else trimmed_from (field row 13) (SSID r)).
Proof.
  intros st p pre row rest h1 h2 Hp Hex Hop Hhdr Hpre Hrow Hlen.
  exists (map network_of_row (accepted_rows (rows_then pre Eof) false)),
         (network_of_row row),
         (map network_of_row (accepted_rows rest true)).
  rewrite (parse_reads st p h1 h2 _ Hp Hex Hop). cbn [fst].
  rewrite (accepted_rows_prefix pre _ false Hpre), Hhdr.
  cbn [orb accepted_rows].
  unfold is_data_row in Hrow. apply andb_prop in Hrow.
  destruct Hrow as [Ha Hs].
  apply negb_true_iff in Ha. apply negb_true_iff in Hs. rewrite Ha, Hs.
  apply Nat.leb_le in Hlen. rewrite Hlen. cbn [andb].
  rewrite map_app. cbn [map].
  split; [reflexivity|]. split; [reflexivity|].
  unfold network_of_row; cbn [BSSID Channel Privacy Cipher Auth Power SSID].
  repeat (split; [apply strip_trimmed|]).
  generalize (or_hidden_strip (field row 13)).
  destruct (all_space (field row 13)); intros ->;
    [reflexivity | apply strip_trimmed].
Qed.

(** C9 (amended): the BSSID values of a snapshot are the trimmed first
    fields of the accepted rows, in the order of the file and with their
    repetitions: the parser does not remove duplicates, so the values are
    pairwise distinct exactly when those of the accepted rows are. *)
Theorem parse_keeps_bssid_of_rows :
  forall st p (reader : csv_rows) h1 h2,
    truthy p = true ->
    os_path_exists p (host st) = (true, h1) ->
    os_open_csv p h1 = (Returns reader, h2) ->
    exists nets,
      fst (parse_airodump_csv (Some p) st) = Ok nets
      /\ map BSSID nets
         = map (fun row => strip (field row 0)) (accepted_rows reader false)
      /\ (NoDup (map BSSID nets)
          <-> NoDup (map (fun row => strip (field row 0))
                         (accepted_rows reader false))).
Proof.
  intros st p reader h1 h2 Hp Hex Hop.
  exists (map network_of_row (accepted_rows reader false)).
  rewrite (parse_reads st p h1 h2 _ Hp Hex Hop). cbn [fst].
  rewrite map_map. cbn [network_of_row BSSID].
  repeat split; trivial.
Qed.

(** C10: called with [None] or with the empty string, the parser returns the
    empty snapshot; it logs nothing but its own call, so it asks the file
    system nothing, and it leaves the host as it was. *)
Theorem parse_falsy_path :
  forall st (path : option str),
    (path = None \/ path = Some []) ->
    exists st',
      parse_airodump_csv path st = (Ok [], st')
      /\ host st' = host st
      /\ log st' = log st ++ [EvCall Fn_parse_airodump_csv]
      /\ filter is_fs_access (log st') = filter is_fs_access (log st).
Proof.
  intros st path [-> | ->]; eexists; (split; [reflexivity|]);
    cbn [logged host log]; rewrite filter_app, app_nil_r; repeat split.
Qed.

End ParserProperties.

(* ================================================================== *)
(** * The parser on the simulated host *)
(* ================================================================== *)

Section ParserRuns.

(** Reading fails after one accepted row: the record of that row is
    returned. *)
Lemma parse_never_raises_run :
  fst (parse_airodump_csv (Some Sim.capture_csv) (Sim.on_file Sim.failing_file))
  = Ok (map network_of_row [Sim.home]).
Proof.
  destruct (parse_never_raises (Sim.on_file Sim.failing_file)
              (Some Sim.capture_csv)) as (_ & _ & _ & H).
  apply (H Sim.capture_csv (Sim.capturing Sim.failing_file)
           (Sim.capturing Sim.failing_file)
           [Sim.ap_header; Sim.home] Sim.os_error).
  - reflexivity.
  - discriminate.
  - vm_compute. reflexivity.
  - vm_compute. reflexivity.
Defined.

(** C3 as stated fails: a file whose reading raises after an accepted row
    does not give the empty snapshot. *)
Lemma parse_read_failure_keeps_records :
  ~ (forall (st : state Sim.sim) (p : str) h1 h2 reader e,
        os_path_exists p (host st) = (true, h1) ->
        os_open_csv p h1 = (Returns reader, h2) ->
        snd (read_rows reader false []) = Some e ->
        fst (parse_airodump_csv (Some p) st) = Ok []).
Proof.
  intros H.
  assert (E : fst (parse_airodump_csv (Some Sim.capture_csv)
                     (Sim.on_file Sim.failing_file)) = Ok []).
  { apply (H (Sim.on_file Sim.failing_file) Sim.capture_csv
             (Sim.capturing Sim.failing_file)
             (Sim.capturing Sim.failing_file)
             Sim.failing_file Sim.os_error);
      vm_compute; reflexivity. }
  vm_compute in E. discriminate E.
Qed.

Lemma parse_ap_table_boundary_run :
  exists nets,
    fst (parse_airodump_csv (Some Sim.capture_csv)
           (Sim.on_file Sim.two_table_file)) = Ok nets
    /\ nets = map network_of_row ([Sim.home] ++ [Sim.cafe])
    /\ length nets = 1 + 1.
Proof.
  apply (parse_ap_table_boundary (Sim.on_file Sim.two_table_file) Sim.capture_csv
           [[]] [Sim.home] [Sim.cafe] [Sim.station_row]
           Sim.ap_header Sim.short_row Sim.station_header Eof
           (Sim.capturing Sim.two_table_file)
           (Sim.capturing Sim.two_table_file)).
  - reflexivity.
  - vm_compute. reflexivity.
  - vm_compute. reflexivity.
  - vm_compute. reflexivity.
  - vm_compute. reflexivity.
  - vm_compute. reflexivity.
  - vm_compute. reflexivity.
  - vm_compute. lia.
  - vm_compute. reflexivity.
Defined.

Lemma parse_extracts_fields_run :
  exists before r after,
    fst (parse_airodump_csv (Some Sim.capture_csv)
           (Sim.on_file Sim.two_table_file)) = Ok (before ++ r :: after)
    /\ trimmed_from (lit " AA:BB:CC:00:00:02 ") (BSSID r)
    /\ trimmed_from (lit "  6") (Channel r)
    /\ trimmed_from (lit " WPA2") (Privacy r)
    /\ SSID r = lit "Hidden".
Proof.
  destruct (parse_extracts_fields (Sim.on_file Sim.two_table_file)
              Sim.capture_csv
              [[]; Sim.ap_header; Sim.home; Sim.short_row] Sim.cafe
              (rows_then [Sim.station_header; Sim.station_row] Eof)
              (Sim.capturing Sim.two_table_file)
              (Sim.capturing Sim.two_table_file))
    as (before & r & after & Hp & _ & Hb & Hc & Hv & _ & _ & _ & Hs).
  - reflexivity.
  - vm_compute. reflexivity.
  - vm_compute. reflexivity.
  - vm_compute. reflexivity.
  - vm_compute. reflexivity.
  - vm_compute. reflexivity.
  - vm_compute. lia.
  - exists before, r, after.
    split; [exact Hp|]. split; [exact Hb|]. split; [exact Hc|].
    split; [exact Hv | exact Hs].
Defined.

Lemma parse_keeps_bssid_of_rows_run :
  exists nets,
    fst (parse_airodump_csv (Some Sim.capture_csv)
           (Sim.on_file Sim.repeated_file)) = Ok nets
    /\ map BSSID nets = [lit "AA:BB:CC:00:00:01"; lit "AA:BB:CC:00:00:01"].
Proof.
  destruct (parse_keeps_bssid_of_rows (Sim.on_file Sim.repeated_file)
              Sim.capture_csv Sim.repeated_file
              (Sim.capturing Sim.repeated_file)
              (Sim.capturing Sim.repeated_file))
    as (nets & Hp & Hb & _).
  - reflexivity.
  - vm_compute. reflexivity.
  - vm_compute. reflexivity.
  - exists nets. split; [exact Hp | exact Hb].
Defined.

(** C9 as stated fails: a file that lists an access point twice gives a
    snapshot with the BSSID twice. *)
Lemma parse_repeats_bssid :
  ~ (forall (st : state Sim.sim) (path : option str) nets,
        fst (parse_airodump_csv path st) = Ok nets ->
        NoDup (map BSSID nets)).
Proof.
  intros H.
  assert (D : NoDup (map BSSID (map network_of_row [Sim.home; Sim.home]))).
  { apply (H (Sim.on_file Sim.repeated_file) (Some Sim.capture_csv)).
    vm_compute. reflexivity. }
  inversion D as [|x l Hin _]. apply Hin. left. reflexivity.
Qed.

Lemma parse_falsy_path_run :
  exists st',
    parse_airodump_csv (Some []) (Sim.on_file Sim.two_table_file) = (Ok [], st')
    /\ host st' = Sim.capturing Sim.two_table_file
    /\ log st' = [EvCall Fn_parse_airodump_csv].
Proof.
  destruct (parse_falsy_path (Sim.on_file Sim.two_table_file) (Some []))
    as (st' & Hp & Hh & Hl & _).
  - right. reflexivity.
  - exists st'. split; [exact Hp|]. split; [exact Hh | exact Hl].
Defined.

End ParserRuns.

(* ================================================================== *)
(** * Reading logs *)
(* ================================================================== *)

Section Logs.

Lemma calls_app (f : fn) (a b : list event) :
  calls f (a ++ b) = calls f a + calls f b.
Proof. unfold calls. now rewrite filter_app, length_app. Qed.

Lemma live_tables_app (a b : list event) :
  live_tables (a ++ b) = live_tables a ++ live_tables b.
Proof. apply flat_map_app. Qed.

Lemma reports_app (a b : list event) :
  reports (a ++ b) = reports a ++ reports b.
Proof. apply flat_map_app. Qed.

Lemma prints_app (a b : list event) :
  prints (a ++ b) = prints a ++ prints b.
Proof. apply flat_map_app. Qed.

Lemma quiet_calm (ev : event) : quiet ev -> calm ev.
Proof. destruct ev; simpl; tauto. Qed.

Lemma calm_calls (evs : list event) :
  Forall calm evs ->
  calls Fn_stop_airodump evs = 0 /\ calls Fn_disable_monitor_mode evs = 0.
Proof.
  induction 1 as [|ev evs Hev _ IH]; [split; reflexivity|].
  change (ev :: evs) with ([ev] ++ evs). rewrite !calls_app.
  destruct IH as [-> ->].
  destruct ev; try (split; reflexivity).
  destruct Hev as [H1 H2].
  destruct f; try (split; reflexivity); congruence.
Qed.

Lemma quiet_silent (evs : list event) :
  Forall quiet evs ->
  calls Fn_stop_airodump evs = 0 /\ calls Fn_disable_monitor_mode evs = 0
  /\ live_tables evs = [] /\ reports evs = []
  /\ ~ In note_no_networks (prints evs) /\ ~ In note_done (prints evs).
Proof.
  intros H.
  destruct (calm_calls evs (Forall_impl _ quiet_calm H)) as [-> ->].
  do 2 (split; [reflexivity|]).
  unfold live_tables, reports, prints.
  induction H as [|ev evs Hev _ IH]; [repeat split; intros []|].
  destruct IH as (I1 & I2 & N1 & N2).
  destruct ev; simpl in *; rewrite ?I1, ?I2; try easy.
  destruct Hev as [H1 H2]. repeat split; intros [E|E]; auto.
Qed.

End Logs.

(* ================================================================== *)
(** * What a computation may log *)
(* ================================================================== *)

Section Adds.
Context {Host : Type} {os : OS Host}.
Variable P : event -> Prop.

Lemma adds_nothing {A} (m : M Host A) :
  (forall st, log (snd (m st)) = log st) -> adds P m.
Proof.
  intros H st. exists []. rewrite H, app_nil_r. split; constructor.
Qed.

Lemma adds_ret {A} (a : A) : adds P (@ret Host A a).
Proof. now apply adds_nothing. Qed.

Lemma adds_raise {A} (e : exn) : adds P (@raise Host A e).
Proof. now apply adds_nothing. Qed.

Lemma adds_get_globals : adds P (@get_globals Host).
Proof. now apply adds_nothing. Qed.

Lemma adds_set_globals (g : globals) : adds P (@set_globals Host g).
Proof. now apply adds_nothing. Qed.

Lemma adds_ask {A} (f : Host -> A * Host) : adds P (ask f).
Proof.
  apply adds_nothing. intros st. unfold ask. now destruct (f (host st)).
Qed.

Lemma adds_call {A} (f : Host -> reply A * Host) : adds P (call f).
Proof.
  apply adds_nothing. intros st. unfold call.
  now destruct (f (host st)) as [[a|e] h].
Qed.

Lemma adds_tell (f : Host -> Host) : adds P (tell f).
Proof. now apply adds_nothing. Qed.

Lemma adds_emit (ev : event) : P ev -> adds P (@emit Host ev).
Proof.
  intros H st. exists [ev]. split; [reflexivity | now repeat constructor].
Qed.

Lemma adds_bind {A B} (m : M Host A) (k : A -> M Host B) :
  adds P m -> (forall a, adds P (k a)) -> adds P (bind m k).
Proof.
  intros Hm Hk st. destruct (Hm st) as (evs1 & L1 & F1). unfold bind.
  destruct (m st) as [[a|e|] st1]; simpl in L1.
  - destruct (Hk a st1) as (evs2 & L2 & F2).
    exists (evs1 ++ evs2). rewrite L2, L1, app_assoc.
    split; [reflexivity | now apply Forall_app].
  - exists evs1. now split.
  - exists evs1. now split.
Qed.

Lemma adds_try_except {A} (body : M Host A) (handler : exn -> M Host A) :
  adds P body -> (forall e, adds P (handler e)) ->
  adds P (try_except body handler).
Proof.
  intros Hb Hh st. destruct (Hb st) as (evs1 & L1 & F1). unfold try_except.
  destruct (body st) as [[a|e|] st1]; simpl in L1.
  - exists evs1. now split.
  - destruct (Hh e st1) as (evs2 & L2 & F2).
    exists (evs1 ++ evs2). rewrite L2, L1, app_assoc.
    split; [reflexivity | now apply Forall_app].
  - exists evs1. now split.
Qed.

End Adds.

Section Finishes.
Context {Host : Type} {os : OS Host}.

Lemma finishes_ret {A} (a : A) : finishes (@ret Host A a).
Proof. intros st. discriminate. Qed.

Lemma finishes_raise {A} (e : exn) : finishes (@raise Host A e).
Proof. intros st. discriminate. Qed.

Lemma finishes_emit (ev : event) : finishes (@emit Host ev).
Proof. intros st. discriminate. Qed.

Lemma finishes_get_globals : finishes (@get_globals Host).
Proof. intros st. discriminate. Qed.

Lemma finishes_set_globals (g : globals) : finishes (@set_globals Host g).
Proof. intros st. discriminate. Qed.

Lemma finishes_tell (f : Host -> Host) : finishes (tell f).
Proof. intros st. discriminate. Qed.

Lemma finishes_ask {A} (f : Host -> A * Host) : finishes (ask f).
Proof. intros st. unfold ask. destruct (f (host st)). discriminate. Qed.

Lemma finishes_call {A} (f : Host -> reply A * Host) : finishes (call f).
Proof.
  intros st. unfold call. destruct (f (host st)) as [[a|e] h]; discriminate.
Qed.

Lemma finishes_bind {A B} (m : M Host A) (k : A -> M Host B) :
  finishes m -> (forall a, finishes (k a)) -> finishes (bind m k).
Proof.
  intros Hm Hk st. specialize (Hm st). unfold bind.
  destruct (m st) as [[a|e|] st1]; simpl in *;
    [apply Hk | discriminate | now elim Hm].
Qed.

Lemma finishes_try_except {A} (body : M Host A) (handler : exn -> M Host A) :
  finishes body -> (forall e, finishes (handler e)) ->
  finishes (try_except body handler).
Proof.
  intros Hb Hh st. specialize (Hb st). unfold try_except.
  destruct (body st) as [[a|e|] st1]; simpl in *;
    [discriminate | apply Hh | now elim Hb].
Qed.

End Finishes.

Ltac finishes_steps :=
  repeat first
    [ apply finishes_ret | apply finishes_raise | apply finishes_emit
    | apply finishes_get_globals | apply finishes_set_globals
    | apply finishes_tell | apply finishes_ask | apply finishes_call
    | apply finishes_bind; [|intros ?]
    | apply finishes_try_except; [|intros ?]
    | match goal with
      | |- finishes (if ?b then _ else _) => destruct b
      | |- finishes (match ?x with _ => _ end) => destruct x
      end ].

Create HintDb adds.

(** Applies the rules above along the structure of a computation; what is
    known of the functions called is taken from the hints. *)
Ltac adds_steps :=
  repeat first
    [ solve [auto with adds nocore]
    | apply adds_ret | apply adds_raise | apply adds_get_globals
    | apply adds_set_globals | apply adds_ask | apply adds_call
    | apply adds_tell
    | apply adds_emit; simpl; try tauto; try (split; discriminate)
    | apply adds_bind; [|intros ?]
    | apply adds_try_except; [|intros ?]
    | match goal with
      | |- adds _ (if ?b then _ else _) => destruct b
      | |- adds _ (match ?x with _ => _ end) => destruct x
      end ].

(** Unfolds the monad and splits on the answers of the host. *)
Ltac crunch :=
  unfold bind, emit, ask, call, tell, ret, raise, try_except, get_globals,
    set_globals; simpl.

Ltac host_cases :=
  repeat (match goal with
          | |- context [os_run ?x ?y] =>
              destruct (os_run x y) as [[?res|?e] ?h]
          | |- context [os_getpgid ?x ?y] =>
              destruct (os_getpgid x y) as [[?pg|?e] ?h]
          | |- context [os_killpg ?x ?y] =>
              destruct (os_killpg x y) as [[?u|?e] ?h]
          | |- context [os_report ?x ?d ?i ?y] =>
              destruct (os_report x d i y) as [[?u|?e] ?h]
          | |- context [os_live_table ?x ?y] =>
              destruct (os_live_table x y) as [[?u|?e] ?h]
          | |- context [os_print ?x ?y] =>
              destruct (os_print x y) as [[[]|?e] ?h]
          | |- context [os_sleep ?x ?y] =>
              destruct (os_sleep x y) as [[[]|?e] ?h]
          end; simpl).

Ltac log_shape := simpl; rewrite <- ?app_assoc; simpl; reflexivity.

(* ================================================================== *)
(** * The pieces of the lifecycle *)
(* ================================================================== *)

Section Lifecycle.
Context {Host : Type} {os : OS Host}.

Implicit Types (st : state Host) (csv iface folder : str).

(** ** The scan loop logs no cleanup call *)

Lemma parse_calm (path : option str) : adds calm (parse_airodump_csv path).
Proof. unfold parse_airodump_csv. adds_steps. Qed.

#[local] Hint Resolve parse_calm : adds.

Lemma scan_iteration_calm csv : adds calm (scan_iteration csv).
Proof. unfold scan_iteration, print_live_table. adds_steps. Qed.

Lemma deliver_sigint_calm : adds calm (@deliver_sigint Host os).
Proof. unfold deliver_sigint, on_sigint, set_running, print. adds_steps. Qed.

Lemma scan_loop_calm (fuel : nat) csv : adds calm (scan_loop fuel csv).
Proof.
  induction fuel as [|fuel IH]; simpl.
  - now apply adds_nothing.
  - apply adds_bind; [apply deliver_sigint_calm | intros _].
    apply adds_bind; [apply adds_get_globals | intros g].
    destruct (running g); [|apply adds_ret].
    apply adds_bind; [apply scan_iteration_calm | intros _; exact IH].
Qed.

(** What [print] does: the attempt is logged, and the call returns or
    raises as the standard output has it. *)
Lemma print_run (text : str) st :
  print text st
  = (outcome_of (fst (os_print text (host st))),
     logged st (snd (os_print text (host st))) [EvPrint text]).
Proof.
  unfold print. crunch.
  destruct (os_print text (host st)) as [[[]|e] h]; reflexivity.
Qed.

(** The loop is left at the first test of the flag after the interrupt; it
    raises when the message of the handler cannot be printed. *)
Lemma scan_loop_leaves_on_sigint (fuel : nat) csv st h :
  os_sigint_delivered (host st) = (true, h) ->
  exists r st1 evs,
    scan_loop (S fuel) csv st = (r, st1)
    /\ r <> Unfinished
    /\ running (glob st1) = false
    /\ log st1 = log st ++ EvCall Fn_on_sigint :: evs
    /\ Forall quiet evs.
Proof.
  intros Hs. simpl.
  unfold deliver_sigint, on_sigint, set_running, print. crunch.
  rewrite Hs. simpl. host_cases;
    eexists _, _, _; (split; [reflexivity|]); (split; [discriminate|]);
    (split; [reflexivity|]); (split; [log_shape|]); quiet_solve.
Qed.

(** A capture tool that cannot be started makes [start_airodump] raise. *)
Lemma start_airodump_launch_failure iface (out_prefix : str) st e h :
  os_popen (airodump_cmd iface out_prefix) (host st) = (Throws e, h) ->
  start_airodump iface out_prefix st
  = (Raised e,
     logged st h [EvCall Fn_start_airodump;
                  EvPopen (airodump_cmd iface out_prefix)]).
Proof.
  intros Hp. unfold start_airodump. crunch. rewrite Hp. simpl.
  unfold logged. now rewrite <- app_assoc.
Qed.

(** ** The initialization *)

Lemma leaves_or_scans_later (fuel : nat) st st1 evs res :
  log st1 = log st ++ evs -> Forall calm evs ->
  leaves_or_scans fuel st1 res -> leaves_or_scans fuel st res.
Proof.
  intros L C [(F & evs1 & L1 & C1) | (st0 & csv & folder & iface & evs1 & E & L1 & C1)].
  - left. split; [exact F|]. exists (evs ++ evs1).
    rewrite L1, L, app_assoc. split; [reflexivity | now apply Forall_app].
  - right. exists st0, csv, folder, iface, (evs ++ evs1).
    rewrite L1, L, app_assoc. repeat split; trivial. now apply Forall_app.
Qed.

(** One step of the initialization: a computation that ends and logs no
    cleanup call, followed by the rest. *)
Lemma leaves_or_scans_bind {A} (fuel : nat) (m : M Host A)
    (k : A -> M Host unit) st :
  finishes m -> adds calm m ->
  (forall a st1, leaves_or_scans fuel st1 (k a st1)) ->
  leaves_or_scans fuel st (bind m k st).
Proof.
  intros F Ad K. specialize (F st). destruct (Ad st) as (evs & L & C).
  unfold bind. destruct (m st) as [[a|e|] st1]; simpl in *.
  - apply (leaves_or_scans_later fuel st st1 evs _ L C), K.
  - left. split; [discriminate|]. now exists evs.
  - easy.
Qed.

Lemma leaves_or_scans_print (fuel : nat) (text : str) st :
  leaves_or_scans fuel st (print text st).
Proof.
  left. rewrite print_run. split.
  - simpl. destruct (fst (os_print text (host st))); discriminate.
  - exists [EvPrint text]. split; [reflexivity | quiet_solve].
Qed.

(** [main] ends during the initialization without any cleanup call, or it
    reaches the [try] of line 313. *)
Lemma main_run (fuel : nat) st : leaves_or_scans fuel st (main fuel st).
Proof.
  unfold main.
  apply leaves_or_scans_bind; [finishes_steps | adds_steps | intros d st1].
  apply leaves_or_scans_bind; [finishes_steps | adds_steps | intros t st2].
  apply leaves_or_scans_bind;
    [unfold set_output_dir; finishes_steps
    |unfold set_output_dir; adds_steps | intros _ st3].
  apply leaves_or_scans_bind; [finishes_steps | adds_steps | intros _ st4].
  apply leaves_or_scans_bind; [finishes_steps | adds_steps | intros _ st5].
  apply leaves_or_scans_bind;
    [unfold get_wifi_interface, detect_interfaces_iwdev,
       detect_interfaces_iwconfig, run_cmd; finishes_steps
    |unfold get_wifi_interface, detect_interfaces_iwdev,
       detect_interfaces_iwconfig, run_cmd; adds_steps
    | intros iface st6].
  destruct iface as [[|c iface]|]; try apply leaves_or_scans_print.
  apply leaves_or_scans_bind;
    [unfold enable_monitor_mode, run_cmd, print; finishes_steps
    |unfold enable_monitor_mode, run_cmd, print; adds_steps
    | intros used st7].
  apply leaves_or_scans_bind;
    [unfold set_interface_used; finishes_steps
    |unfold set_interface_used; adds_steps | intros _ st8].
  apply leaves_or_scans_bind;
    [unfold start_airodump, set_airodump_proc; finishes_steps
    |unfold start_airodump, set_airodump_proc; adds_steps | intros _ st9].
  apply leaves_or_scans_bind;
    [unfold set_csv_path; finishes_steps
    |unfold set_csv_path; adds_steps | intros _ st10].
  apply leaves_or_scans_bind;
    [unfold print; finishes_steps | unfold print; adds_steps | intros _ st11].
  apply leaves_or_scans_bind; [finishes_steps | adds_steps | intros _ st12].
  right. eexists st12, _, _, _, []. rewrite app_nil_r.
  split; [reflexivity|]. split; [reflexivity | constructor].
Qed.

(** ** The cleanup steps *)

(** Stopping the capture never raises. *)
Lemma stop_airodump_run st :
  exists st1 evs,
    stop_airodump st = (Ok tt, st1)
    /\ log st1 = log st ++ EvCall Fn_stop_airodump :: evs
    /\ Forall quiet evs.
Proof.
  unfold stop_airodump, set_airodump_proc. crunch.
  destruct (airodump_proc (glob st)) as [p|]; simpl; host_cases;
    eexists _, _; (split; [reflexivity|]); (split; [log_shape|]);
    quiet_solve.
Qed.

(** Restoring the mode logs its call and then runs commands and prints; it
    may raise, when a command cannot be run or a message cannot be
    printed. *)
Lemma disable_monitor_mode_run iface st :
  exists r st1 evs,
    disable_monitor_mode iface st = (r, st1)
    /\ r <> Unfinished
    /\ log st1 = log st ++ EvCall Fn_disable_monitor_mode :: evs
    /\ Forall quiet evs.
Proof.
  unfold disable_monitor_mode, run_cmd, print. crunch. host_cases;
    eexists _, _, _; (split; [reflexivity|]); (split; [discriminate|]);
    (split; [log_shape|]); quiet_solve.
Qed.

(** The report collaborator is called with the records, the folder and the
    interface; it returns or raises. *)
Lemma generate_pdf_run (nets : list network) folder iface st :
  exists r h,
    generate_pdf nets folder iface st
    = (r, logged st h [EvReport nets folder iface])
    /\ r <> Unfinished.
Proof.
  unfold generate_pdf. crunch. host_cases; eexists _, _;
    (split; [reflexivity | discriminate]).
Qed.

(** A look at the snapshot file: the query, then the parser if the file is
    there. *)
Lemma look_run csv st :
  let (ex, h) := os_path_exists csv (host st) in
  if ex
  then exists nets evs h',
      parse_airodump_csv (Some csv) (logged st h [EvExists csv])
      = (Ok nets, logged st h' (EvExists csv :: evs))
      /\ snapshot_at csv st = Some nets
      /\ Forall quiet evs
      /\ calls Fn_parse_airodump_csv evs = 1
  else snapshot_at csv st = None.
Proof.
  unfold snapshot_at. destruct (os_path_exists csv (host st)) as [ex h].
  destruct ex; [|reflexivity].
  destruct (parse_returns (Some csv) (logged st h [EvExists csv]))
    as (nets & evs & h' & E & Q & C).
  exists nets, evs, h'. rewrite E. repeat split; trivial.
  unfold logged. simpl. now rewrite <- app_assoc.
Qed.

End Lifecycle.

(* ================================================================== *)
(** * Shutdown and scanning *)
(* ================================================================== *)

Section Shutdown.
Context {Host : Type} {os : OS Host}.

Implicit Types (st : state Host) (csv iface folder : str).

Local Arguments parse_airodump_csv : simpl never.
Local Arguments generate_pdf : simpl never.
Local Arguments print : simpl never.

(** Where the standard output works, no [print] raises. *)
Lemma stdout_works_print (text : str) (h : Host) :
  stdout_works -> outcome_of (fst (os_print text h)) = Ok tt.
Proof. intros W. now rewrite (W text h). Qed.

Lemma print_finishes (text : str) (h : Host) :
  outcome_of (fst (os_print text h)) <> Unfinished.
Proof. destruct (fst (os_print text h)); discriminate. Qed.

(** The final parse and the report: the report is asked for when the
    snapshot has a record, the note is given to [print] when it has none,
    and nothing of the two happens when the file does not exist.  What is
    raised on the way is caught and reported by a [print], and only that
    [print] can make the step raise. *)
Lemma report_step_run csv folder iface st :
  exists r st1 evs evs',
    report_step csv folder iface st = (r, st1)
    /\ r <> Unfinished
    /\ log st1
       = log st ++ evs ++ report_or_note (snapshot_at csv st) folder iface
         ++ evs'
    /\ Forall quiet evs /\ Forall quiet evs'
    /\ (stdout_works -> r = Ok tt).
Proof.
  pose proof (look_run csv st) as L.
  unfold report_step, try_except, bind, emit, ask, ret. simpl.
  destruct (os_path_exists csv (host st)) as [ex h]. simpl.
  destruct ex.
  - destruct L as (nets & evs & h' & E & S & Q & _).
    unfold logged in E. rewrite E, S. simpl.
    assert (Q' : Forall quiet (EvExists csv :: evs))
      by (constructor; [exact I | exact Q]).
    destruct nets as [|n l]; simpl.
    + rewrite print_run. simpl.
      destruct (os_print note_no_networks h') as [[[]|e] h2] eqn:P; simpl.
      * eexists _, _, (EvExists csv :: evs), []. split; [reflexivity|].
        split; [discriminate|]. split; [log_shape|].
        split; [exact Q'|]. split; [constructor | reflexivity].
      * rewrite print_run. simpl.
        eexists _, _, (EvExists csv :: evs), [_]. split; [reflexivity|].
        split; [apply print_finishes|]. split; [log_shape|].
        split; [exact Q'|]. split; [quiet_solve|].
        intros W. now apply stdout_works_print.
    + destruct (generate_pdf_run (n :: l) folder iface
                  (logged st h' (EvExists csv :: evs))) as (r & h2 & G & F).
      unfold logged in G. rewrite G.
      destruct r as [[]|e|]; [| |easy]; simpl.
      * eexists _, _, (EvExists csv :: evs), []. split; [reflexivity|].
        split; [discriminate|]. split; [log_shape|].
        split; [exact Q'|]. split; [constructor | reflexivity].
      * rewrite print_run. simpl.
        eexists _, _, (EvExists csv :: evs), [_]. split; [reflexivity|].
        split; [apply print_finishes|]. split; [log_shape|].
        split; [exact Q'|]. split; [quiet_solve|].
        intros W. now apply stdout_works_print.
  - rewrite L. eexists _, _, [EvExists csv], []. split; [reflexivity|].
    split; [discriminate|]. split; [log_shape|].
    split; [quiet_solve|]. split; [constructor | reflexivity].
Qed.

(** Restoring the mode is attempted and never raises. *)
Lemma restore_step_run iface st :
  exists st1 evs,
    restore_step iface st = (Ok tt, st1)
    /\ log st1 = log st ++ EvCall Fn_disable_monitor_mode :: evs
    /\ Forall quiet evs.
Proof.
  destruct (disable_monitor_mode_run iface st) as (r & st1 & evs & E & F & L & Q).
  unfold restore_step, try_except. rewrite E.
  destruct r as [[]|e|]; [| |easy]; exists st1, evs; repeat split; trivial.
Qed.

(** The whole [finally] block.  The capture is stopped, then the report
    step runs; when that step raises the block ends there ([rest] is
    empty), otherwise the restoration is attempted and the closing line is
    given to [print]. *)
Lemma finalize_run csv folder iface st :
  exists st1 evs1,
    stop_airodump st = (Ok tt, st1)
    /\ log st1 = log st ++ EvCall Fn_stop_airodump :: evs1
    /\ Forall quiet evs1
    /\ exists r st' evs2 evs3 rest,
        finalize csv folder iface st = (r, st')
        /\ r <> Unfinished
        /\ log st'
           = log st1 ++ evs2
             ++ report_or_note (snapshot_at csv st1) folder iface
             ++ evs3 ++ rest
        /\ Forall quiet evs2 /\ Forall quiet evs3
        /\ ((rest = [] /\ exists e, r = Raised e)
            \/ exists evs4,
                rest = EvCall Fn_disable_monitor_mode :: evs4
                         ++ [EvPrint note_done]
                /\ Forall quiet evs4)
        /\ (stdout_works -> r = Ok tt).
Proof.
  destruct (stop_airodump_run st) as (st1 & evs1 & E1 & L1 & Q1).
  exists st1, evs1. do 3 (split; [assumption|]).
  destruct (report_step_run csv folder iface st1)
    as (r2 & st2 & evs2 & evs3 & E2 & F2 & L2 & Q2 & Q3 & W2).
  unfold finalize, bind. rewrite E1, E2.
  destruct r2 as [[]|e|]; [| |easy].
  - destruct (restore_step_run iface st2) as (st3 & evs4 & E3 & L3 & Q4).
    rewrite E3, print_run.
    eexists _, _, evs2, evs3,
      (EvCall Fn_disable_monitor_mode :: evs4 ++ [EvPrint note_done]).
    split; [reflexivity|]. split; [apply print_finishes|].
    split; [simpl; rewrite L3, L2, <- !app_assoc; reflexivity|].
    do 2 (split; [assumption|]).
    split; [right; now exists evs4|].
    intros W. now apply stdout_works_print.
  - eexists _, _, evs2, evs3, []. split; [reflexivity|].
    split; [discriminate|]. split; [now rewrite app_nil_r|].
    do 2 (split; [assumption|]).
    split; [left; split; [reflexivity | now exists e]|].
    intros W. exact (W2 W).
Qed.

End Shutdown.

Section ShutdownProperties.
Context {Host : Type} {os : OS Host}.

Implicit Types (st : state Host) (csv iface folder : str).

Local Arguments parse_airodump_csv : simpl never.

Lemma calls_report_or_note (f : fn) (snap : option (list network))
    folder iface :
  calls f (report_or_note snap folder iface) = 0.
Proof. now destruct snap as [[|n l]|]. Qed.

Lemma reports_report_or_note (snap : option (list network)) folder iface :
  reports (report_or_note snap folder iface)
  = match snap with
    | Some (n :: l) => [(n :: l, folder, iface)]
    | _ => []
    end.
Proof. now destruct snap as [[|n l]|]. Qed.

Lemma note_report_or_note (snap : option (list network)) folder iface :
  In note_no_networks (prints (report_or_note snap folder iface))
  <-> snap = Some [].
Proof.
  destruct snap as [[|n l]|]; simpl.
  - split; [reflexivity | intros _; now left].
  - split; [intros [] | discriminate].
  - split; [intros [] | discriminate].
Qed.

(** The events of the [finally] block hold one call of [stop_airodump] and
    at most one call of [disable_monitor_mode], which is there whenever the
    block does not raise. *)
Lemma finalize_calls csv folder iface st :
  exists r st' (a : nat),
    finalize csv folder iface st = (r, st')
    /\ r <> Unfinished
    /\ calls Fn_stop_airodump (log st') = calls Fn_stop_airodump (log st) + 1
    /\ calls Fn_disable_monitor_mode (log st')
       = calls Fn_disable_monitor_mode (log st) + a
    /\ a <= 1
    /\ (r = Ok tt -> a = 1)
    /\ (stdout_works -> r = Ok tt).
Proof.
  destruct (finalize_run csv folder iface st)
    as (st1 & evs1 & _ & L1 & Q1 & r & st' & evs2 & evs3 & rest & E & F & L
        & Q2 & Q3 & R & W).
  destruct (quiet_silent _ Q1) as (A1 & B1 & _).
  destruct (quiet_silent _ Q2) as (A2 & B2 & _).
  destruct (quiet_silent _ Q3) as (A3 & B3 & _).
  exists r, st'.
  destruct R as [(-> & e & ->) | (evs4 & -> & Q4)].
  - exists 0. split; [exact E|]. split; [discriminate|].
    rewrite L, L1.
    change (EvCall Fn_stop_airodump :: evs1)
      with ([EvCall Fn_stop_airodump] ++ evs1).
    rewrite !calls_app, !calls_report_or_note.
    rewrite A1, A2, A3, B1, B2, B3.
    split; [unfold calls; simpl; lia|]. split; [unfold calls; simpl; lia|].
    split; [lia|]. split; [discriminate | exact W].
  - exists 1. split; [exact E|]. split; [exact F|].
    destruct (quiet_silent _ Q4) as (A4 & B4 & _).
    rewrite L, L1.
    change (EvCall Fn_stop_airodump :: evs1)
      with ([EvCall Fn_stop_airodump] ++ evs1).
    change (EvCall Fn_disable_monitor_mode :: evs4 ++ [EvPrint note_done])
      with ([EvCall Fn_disable_monitor_mode] ++ evs4 ++ [EvPrint note_done]).
    rewrite !calls_app, !calls_report_or_note.
    rewrite A1, A2, A3, A4, B1, B2, B3, B4.
    split; [unfold calls; simpl; lia|]. split; [unfold calls; simpl; lia|].
    split; [lia|]. split; [reflexivity | exact W].
Qed.

(** X22: where the standard output takes every text, once the scan loop is
    left, by the interrupt or by an exception, the [finally] block runs to
    its end, also when the report collaborator raises: over the loop and
    the block, [stop_airodump] is entered exactly once and
    [disable_monitor_mode] exactly once, and what the loop returned or
    raised is what the whole returns or raises. *)
Theorem shutdown_cleans_up_once :
  forall (fuel : nat) csv folder iface st r st1,
    stdout_works ->
    scan_loop fuel csv st = (r, st1) ->
    r <> Unfinished ->
    exists st2,
      try_finally (scan_loop fuel csv) (finalize csv folder iface) st
      = (r, st2)
      /\ calls Fn_stop_airodump (log st2)
         = calls Fn_stop_airodump (log st) + 1
      /\ calls Fn_disable_monitor_mode (log st2)
         = calls Fn_disable_monitor_mode (log st) + 1.
Proof.
  intros fuel csv folder iface st r st1 W Hloop Hr.
  destruct (scan_loop_calm fuel csv st) as (evs0 & L0 & C0).
  rewrite Hloop in L0. cbn [snd] in L0.
  destruct (calm_calls _ C0) as [A0 B0].
  destruct (finalize_calls csv folder iface st1)
    as (r2 & st2 & a & E & _ & A & B & _ & Ha & W2).
  specialize (W2 W). subst r2. specialize (Ha eq_refl). subst a.
  assert (A' : calls Fn_stop_airodump (log st2)
               = calls Fn_stop_airodump (log st) + 1)
    by (rewrite A, L0, calls_app, A0; lia).
  assert (B' : calls Fn_disable_monitor_mode (log st2)
               = calls Fn_disable_monitor_mode (log st) + 1)
    by (rewrite B, L0, calls_app, B0; lia).
  exists st2. split; [|split; assumption].
  unfold try_finally. rewrite Hloop.
  destruct r as [[]|e|]; [| |easy]; unfold bind; now rewrite E.
Qed.

(** C7 (amended): during shutdown the report collaborator is called exactly
    when the snapshot file exists and its final parse yields at least one
    record, with those records; the note is given to [print] exactly when
    the file exists and the final parse yields no record; when the file
    does not exist neither happens.  Where the standard output takes every
    text, the mode restoration is then attempted once and the run ends by
    printing the closing line, in each of the three cases. *)
Theorem shutdown_reports_snapshot :
  forall csv folder iface st,
    exists st1 r st' evs,
      stop_airodump st = (Ok tt, st1)
      /\ finalize csv folder iface st = (r, st')
      /\ r <> Unfinished
      /\ log st' = log st ++ evs
      /\ reports evs
         = match snapshot_at csv st1 with
           | Some (n :: l) => [(n :: l, folder, iface)]
           | _ => []
           end
      /\ (In note_no_networks (prints evs) <-> snapshot_at csv st1 = Some [])
      /\ (stdout_works ->
          r = Ok tt
          /\ calls Fn_disable_monitor_mode evs = 1
          /\ last (prints evs) [] = note_done).
Proof.
  intros csv folder iface st.
  destruct (finalize_run csv folder iface st)
    as (st1 & evs1 & E1 & L1 & Q1 & r & st' & evs2 & evs3 & rest & E & F & L
        & Q2 & Q3 & R & W).
  destruct (quiet_silent _ Q1) as (_ & B1 & _ & R1 & N1 & _).
  destruct (quiet_silent _ Q2) as (_ & B2 & _ & R2 & N2 & _).
  destruct (quiet_silent _ Q3) as (_ & B3 & _ & R3 & N3 & _).
  pose proof (note_report_or_note (snapshot_at csv st1) folder iface) as N.
  exists st1, r, st'.
  exists ([EvCall Fn_stop_airodump] ++ evs1 ++ evs2
          ++ report_or_note (snapshot_at csv st1) folder iface
          ++ evs3 ++ rest).
  split; [exact E1|]. split; [exact E|]. split; [exact F|].
  split; [rewrite L, L1, <- !app_assoc; reflexivity|].
  rewrite !reports_app, !prints_app, !calls_app, !calls_report_or_note,
    reports_report_or_note.
  rewrite R1, R2, R3, B1, B2, B3.
  destruct R as [(-> & e & ->) | (evs4 & -> & Q4)].
  - split; [simpl; now rewrite app_nil_r|]. split.
    + rewrite !in_app_iff. simpl. tauto.
    + intros W'. specialize (W W'). discriminate W.
  - destruct (quiet_silent _ Q4) as (_ & B4 & _ & R4 & N4 & _).
    change (EvCall Fn_disable_monitor_mode :: evs4 ++ [EvPrint note_done])
      with ([EvCall Fn_disable_monitor_mode] ++ evs4 ++ [EvPrint note_done]).
    rewrite !reports_app, !prints_app, !calls_app. rewrite R4, B4.
    split; [simpl; now rewrite !app_nil_r|]. split.
    + rewrite !in_app_iff. simpl.
      assert (D : note_done <> note_no_networks) by discriminate.
      tauto.
    + intros W'. split; [exact (W W')|]. split; [reflexivity|].
      rewrite !app_assoc. apply last_last.
Qed.

(** C8 (amended): every turn of the scan loop asks whether the snapshot file
    exists and parses it again when it does; the records are forwarded to
    the live view only when there is at least one, and nothing is forwarded
    for an empty result or a missing file; the turn ends with the sleep of
    the fixed interval unless the live view raises. *)
Theorem scan_iteration_forwards :
  forall csv st,
    (forall fuel,
        scan_loop (S fuel) csv st
        = (deliver_sigint ;;
           g <- get_globals ;;
           if running g then scan_iteration csv ;; scan_loop fuel csv
           else ret tt) st)
    /\ exists r st' evs,
        scan_iteration csv st = (r, st')
        /\ log st' = log st ++ evs
        /\ live_tables evs = forwarded (snapshot_at csv st)
        /\ calls Fn_parse_airodump_csv evs
           = match snapshot_at csv st with Some _ => 1 | None => 0 end
        /\ ((r = Ok tt /\ exists evs0, evs = evs0 ++ [EvSleep REFRESH_SEC])
            \/ exists e, r = Raised e).
Proof.
  intros csv st. split; [reflexivity|].
  pose proof (look_run csv st) as L.
  unfold scan_iteration, print_live_table, bind, emit, ask, tell, call, ret.
  simpl.
  destruct (os_path_exists csv (host st)) as [ex h]. simpl.
  destruct ex.
  - destruct L as (nets & evs & h' & E & S & Q & C).
    destruct (quiet_silent _ Q) as (_ & _ & T & _).
    unfold logged in E. rewrite E, S. simpl.
    destruct nets as [|n l]; simpl.
    + destruct (os_sleep REFRESH_SEC h') as [[[]|es] hs]; simpl;
        eexists _, _, (EvExists csv :: evs ++ [EvSleep REFRESH_SEC]);
        (split; [reflexivity|]); (split; [log_shape|]);
        change (EvExists csv :: evs ++ [EvSleep REFRESH_SEC])
          with ([EvExists csv] ++ evs ++ [EvSleep REFRESH_SEC]);
        rewrite !live_tables_app, !calls_app, T, C;
        repeat split;
        [ left; split; [reflexivity|]; now exists ([EvExists csv] ++ evs)
        | right; now exists es ].
    + destruct (os_live_table (n :: l) h') as [[[]|e] h2]; simpl.
      * destruct (os_sleep REFRESH_SEC h2) as [[[]|es] hs]; simpl;
          eexists _, _, ([EvExists csv] ++ evs ++ [EvLiveTable (n :: l)]
                         ++ [EvSleep REFRESH_SEC]);
          (split; [reflexivity|]); (split; [log_shape|]);
          rewrite !live_tables_app, !calls_app, T, C;
          repeat split;
          [ left; split; [reflexivity|];
            exists ([EvExists csv] ++ evs ++ [EvLiveTable (n :: l)]);
            now rewrite <- !app_assoc
          | right; now exists es ].
      * eexists _, _, ([EvExists csv] ++ evs ++ [EvLiveTable (n :: l)]).
        split; [reflexivity|]. split; [log_shape|].
        rewrite !live_tables_app, !calls_app, T, C.
        repeat split. right. now exists e.
  - rewrite L. simpl.
    destruct (os_sleep REFRESH_SEC h) as [[[]|es] hs]; simpl;
      eexists _, _, ([EvExists csv] ++ [EvSleep REFRESH_SEC]);
      (split; [reflexivity|]); (split; [log_shape|]);
      repeat split;
      [ left; split; [reflexivity|]; now exists [EvExists csv]
      | right; now exists es ].
Qed.

End ShutdownProperties.

(* ================================================================== *)
(** * The lifecycle on the simulated host *)
(* ================================================================== *)

Section LifecycleRuns.

Lemma sim_stdout_works : @stdout_works Sim.sim Sim.sim_os.
Proof. intros text h. reflexivity. Qed.

(** The interrupt arrives at the third test of the flag and the report
    collaborator raises: both cleanup functions are entered once. *)
Lemma shutdown_cleans_up_once_run :
  exists st2,
    try_finally (scan_loop 5 Sim.capture_csv)
      (finalize Sim.capture_csv Sim.scan_folder Sim.wlan0)
      (Sim.scanning Sim.no_report) = (Ok tt, st2)
    /\ calls Fn_stop_airodump (log st2) = 1
    /\ calls Fn_disable_monitor_mode (log st2) = 1
    /\ length (reports (log st2)) = 1
    /\ In ([9888%N; 65039%N] ++ lit " Failed to generate PDF: "
           ++ lit "PermissionError") (prints (log st2)).
Proof.
  destruct (shutdown_cleans_up_once 5 Sim.capture_csv Sim.scan_folder
              Sim.wlan0 (Sim.scanning Sim.no_report) (Ok tt)
              (snd (scan_loop 5 Sim.capture_csv (Sim.scanning Sim.no_report))))
    as (st2 & E & A & B).
  - exact sim_stdout_works.
  - vm_compute. reflexivity.
  - discriminate.
  - exists st2. split; [exact E|]. split; [exact A|]. split; [exact B|].
    assert (S : st2 = snd (try_finally (scan_loop 5 Sim.capture_csv)
                             (finalize Sim.capture_csv Sim.scan_folder
                                Sim.wlan0) (Sim.scanning Sim.no_report)))
      by now rewrite E.
    rewrite S. split; [vm_compute; reflexivity|].
    vm_compute. tauto.
Defined.

(** A shutdown over a snapshot without records: the note is given to
    [print], no report is asked for, and the closing line ends the run. *)
Lemma shutdown_reports_snapshot_run :
  exists st',
    finalize Sim.capture_csv Sim.scan_folder Sim.wlan0
      (Sim.scanning (Sim.capturing Sim.empty_table_file)) = (Ok tt, st')
    /\ In note_no_networks (prints (log st'))
    /\ reports (log st') = []
    /\ last (prints (log st')) [] = note_done.
Proof.
  destruct (shutdown_reports_snapshot Sim.capture_csv Sim.scan_folder
              Sim.wlan0 (Sim.scanning (Sim.capturing Sim.empty_table_file)))
    as (st1 & r & st' & evs & E1 & E & _ & L & R & N & W).
  destruct (W sim_stdout_works) as (-> & _ & D).
  assert (S1 : st1 = snd (stop_airodump
                            (Sim.scanning (Sim.capturing Sim.empty_table_file))))
    by now rewrite E1.
  assert (S : snapshot_at Sim.capture_csv st1 = Some [])
    by (rewrite S1; vm_compute; reflexivity).
  exists st'. split; [exact E|]. rewrite L. simpl.
  split; [now apply N|]. split; [now rewrite R, S | exact D].
Defined.


(** C7 as stated fails: when the snapshot file was never written, no record
    was captured and no report is made, yet no note is printed. *)
Lemma shutdown_without_file_prints_no_note :
  ~ (forall (st : state Sim.sim) (csv folder iface : str),
        let st' := snd (finalize csv folder iface st) in
        reports (log st') = [] ->
        In note_no_networks (prints (log st'))).
Proof.
  intros H.
  specialize (H (Sim.scanning Sim.fresh) Sim.capture_csv Sim.scan_folder
                Sim.wlan0 eq_refl).
  vm_compute in H.
  repeat (destruct H as [H|H]; [discriminate H|]). exact H.
Qed.

(** C8 as stated fails: a turn of the loop over a snapshot without records
    forwards nothing to the live view. *)
Lemma scan_iteration_forwards_nothing :
  ~ (forall (st : state Sim.sim) (csv : str),
        exists nets,
          In (EvLiveTable nets) (log (snd (scan_iteration csv st)))).
Proof.
  intros H.
  destruct (H (Sim.on_file Sim.empty_table_file) Sim.capture_csv)
    as (nets & Hin).
  vm_compute in Hin.
  repeat (destruct Hin as [Hin|Hin]; [discriminate Hin|]). exact Hin.
Qed.

(** C1: the code at the failing input.  On a host where the interface is
    switched to monitor mode and the capture tool then cannot be started,
    the script ends with the exception of [Popen]; [disable_monitor_mode] is
    never entered and the interface is left in monitor mode. *)
Theorem main_launch_failure_skips_restore :
  let (r, st') := script 5 (Sim.start Sim.no_capture) in
  r = Raised Sim.os_error
  /\ calls Fn_enable_monitor_mode (log st') = 1
  /\ calls Fn_start_airodump (log st') = 1
  /\ calls Fn_stop_airodump (log st') = 0
  /\ calls Fn_disable_monitor_mode (log st') = 0
  /\ Sim.ifaces (host st') = [(Sim.wlan0, true)].
Proof. vm_compute. repeat split. Qed.

(** C2: the code at the failing input.  The standard output is a pipe whose
    reader goes away once the message of the interrupt handler is out.  The
    scan loop is left by the interrupt and [stop_airodump] is entered once;
    [generate_pdf] writes the report and raises at its closing [print]
    (line 274); the handler of line 330 catches that and raises at its own
    [print] (line 331), inside the [finally] block and outside every [try]
    of it.  So the block ends there: [disable_monitor_mode] is never
    entered, against "Always try to restore managed mode" (line 332), and
    the interface is left in monitor mode. *)
Theorem shutdown_closed_stdout_skips_restore :
  let (r, st') :=
    script 5 (Sim.rough_start
                (Sim.piped 6 (Sim.capturing Sim.two_table_file))) in
  r = Raised Sim.broken_pipe
  /\ calls Fn_on_sigint (log st') = 1
  /\ calls Fn_stop_airodump (log st') = 1
  /\ length (reports (log st')) = 1
  /\ calls Fn_disable_monitor_mode (log st') = 0
  /\ Sim.ifaces (Sim.inner (host st')) = [(Sim.wlan0, true)].
Proof. vm_compute. repeat split. Qed.

End LifecycleRuns.

(* ================================================================== *)
(** * More on the row loop *)
(* ================================================================== *)

Section RowLoop.

Local Arguments Nat.leb : simpl never.
Local Arguments length : simpl never.

Lemma accepted_rows_no_header (f : csv_rows) :
  existsb is_ap_header (stream_rows f) = false ->
  accepted_rows f false = [].
Proof.
  induction f as [|row rest IH|e]; simpl; intros H; try reflexivity.
  apply orb_false_elim in H. destruct H as [Hh Hrest].
  rewrite Hh. destruct (is_station_header row); [reflexivity|].
  simpl. apply IH, Hrest.
Qed.

(** X1: a file in which no row starts with the header token of the AP
    table gives the empty snapshot, however wide its rows are. *)
Theorem read_rows_without_header :
  forall (f : csv_rows),
    existsb is_ap_header (stream_rows f) = false ->
    fst (read_rows f false []) = [].
Proof.
  intros f H. rewrite read_rows_accepted.
  now rewrite (accepted_rows_no_header f H).
Qed.

Lemma accepted_rows_cut (n : nat) :
  forall (f : csv_rows) (b : bool),
    exists more,
      accepted_rows f b = accepted_rows (cut_at n f) b ++ more.
Proof.
  induction n as [|n IH]; intros f b.
  - exists (accepted_rows f b). now destruct f.
  - destruct f as [|row rest|e]; simpl.
    + now exists [].
    + destruct (is_station_header row); [now exists []|].
      destruct (is_ap_header row); [apply IH|].
      destruct (b && (14 <=? length row)); [|apply IH].
      destruct (IH rest b) as (more & ->). now exists more.
    + now exists [].
Qed.

(** X2: the records of a file cut short after any number of rows are the
    first records of the whole file, in the same order: a partial snapshot
    only lacks records at its end. *)
Theorem read_rows_of_cut_file :
  forall (n : nat) (f : csv_rows) (seen : bool),
    exists more,
      fst (read_rows f seen [])
      = fst (read_rows (cut_at n f) seen []) ++ more.
Proof.
  intros n f seen. rewrite !read_rows_accepted.
  destruct (accepted_rows_cut n f seen) as (more & ->).
  exists (map network_of_row more). simpl. now rewrite map_app.
Qed.

Lemma station_header_first (sta : list str) :
  is_station_header sta = true ->
  exists f0 fs,
    sta = f0 :: fs /\ strip f0 = lit "Station MAC".
Proof.
  unfold is_station_header, first_is. destruct sta as [|f0 fs]; [discriminate|].
  destruct (str_eq_dec (strip f0) (lit "Station MAC")) as [E|]; [|discriminate].
  intros _. now exists f0, fs.
Qed.

(** X3: the loop stops at the header of the station table: what follows it
    in the file, rows or a failure of the reader, changes neither the
    records nor the way the loop ends. *)
Theorem read_rows_stops_at_station_header :
  forall (rows : list (list str)) (sta : list str) (tail : csv_rows)
         (seen : bool) (nets : list network),
    is_station_header sta = true ->
    read_rows (rows_then rows (Row sta tail)) seen nets
    = read_rows (rows_then rows Eof) seen nets.
Proof.
  intros rows sta tail seen nets Hsta.
  destruct (station_header_first sta Hsta) as (f0 & fs & -> & Hf).
  revert seen nets.
  induction rows as [|row rows IH]; intros seen nets.
  - simpl. rewrite Hf.
    destruct (str_eq_dec (lit "Station MAC") (lit "BSSID")) as [E|_];
      [discriminate E|].
    destruct (str_eq_dec (lit "Station MAC") (lit "Station MAC")) as [_|N];
      [reflexivity | now elim N].
  - simpl. destruct row as [|g0 gs]; [apply IH|].
    destruct (str_eq_dec (strip g0) (lit "BSSID")); [apply IH|].
    destruct (str_eq_dec (strip g0) (lit "Station MAC")); [reflexivity|].
    destruct (seen && (13 <? length (g0 :: gs))); apply IH.
Qed.

(** Trimming a trimmed string changes nothing. *)
Lemma lstrip_head_not_space (t : str) : head_not_space t -> lstrip t = t.
Proof. destruct t as [|c t]; simpl; [reflexivity|]. now intros ->. Qed.

Lemma strip_is_trimmed (s : str) : is_trimmed (strip s).
Proof.
  destruct (strip_trimmed s) as (l & r & _ & _ & _ & Hh & Hl).
  unfold is_trimmed. unfold strip at 1, rstrip.
  rewrite (lstrip_head_not_space _ Hh), (lstrip_head_not_space _ Hl).
  apply rev_involutive.
Qed.

Lemma or_hidden_tidy (s : str) :
  is_trimmed (or_hidden (strip s)) /\ or_hidden (strip s) <> [].
Proof.
  unfold or_hidden. destruct (strip s) as [|c t] eqn:E; simpl.
  - split; [reflexivity | discriminate].
  - split; [|discriminate]. rewrite <- E. apply strip_is_trimmed.
Qed.

Lemma network_of_row_tidy (row : list str) : tidy (network_of_row row).
Proof.
  unfold tidy, network_of_row. simpl.
  destruct (or_hidden_tidy (field row 13)) as [H1 H2].
  repeat split; trivial; apply strip_is_trimmed.
Qed.

(** X4: in every snapshot, whatever the file, no field of a record has
    surrounding white space and no record has an empty name. *)
Theorem read_rows_records_tidy :
  forall (f : csv_rows) (seen : bool),
    Forall tidy (fst (read_rows f seen [])).
Proof.
  intros f seen. rewrite read_rows_accepted. simpl.
  apply Forall_forall. intros r Hr. apply in_map_iff in Hr.
  destruct Hr as (row & <- & _). apply network_of_row_tidy.
Qed.

End RowLoop.

(* ================================================================== *)
(** * More on the parser and the capture process *)
(* ================================================================== *)

Section Capture.
Context {Host : Type} {os : OS Host}.

Implicit Types (st : state Host) (iface p : str).

(** X5: the parser never changes the variables of the program; of the file
    system it asks at most whether the path exists and then opens that same
    path, and it opens it only after the file system said the path
    exists. *)
Theorem parse_touches_only_the_file :
  forall (path : option str) st,
    exists h evs,
      snd (parse_airodump_csv path st)
      = logged st h (EvCall Fn_parse_airodump_csv :: evs)
      /\ ((evs = [] /\ h = host st)
          \/ exists p,
              path = Some p
              /\ ((evs = [EvExists p]
                   /\ fst (os_path_exists p (host st)) = false)
                  \/ (evs = [EvExists p; EvOpen p]
                      /\ fst (os_path_exists p (host st)) = true))).
Proof.
  intros path st. destruct path as [p|].
  2:{ exists (host st), []. rewrite parse_no_path. split; [reflexivity|].
      now left. }
  destruct (truthy p) eqn:Hp.
  2:{ destruct p; [|discriminate]. exists (host st), [].
      rewrite parse_empty_path. split; [reflexivity|]. now left. }
  destruct (os_path_exists p (host st)) as [ex h1] eqn:Hex.
  destruct ex.
  - destruct (os_open_csv p h1) as [[reader|e] h2] eqn:Hop.
    + exists h2, [EvExists p; EvOpen p].
      rewrite (parse_reads _ _ _ _ _ Hp Hex Hop). split; [reflexivity|].
      right. exists p. split; [reflexivity|]. right. now rewrite Hex.
    + exists h2, [EvExists p; EvOpen p].
      rewrite (parse_open_fails _ _ _ _ _ Hp Hex Hop). split; [reflexivity|].
      right. exists p. split; [reflexivity|]. right. now rewrite Hex.
  - exists h1, [EvExists p]. rewrite (parse_absent _ _ _ Hp Hex).
    split; [reflexivity|]. right. exists p. split; [reflexivity|].
    left. now rewrite Hex.
Qed.

(** X6: stopping the capture never raises and always leaves no process on
    record, the other variables being kept; so a second stop in a row makes
    no call to the operating system and changes nothing. *)
Theorem stop_airodump_twice :
  forall st,
    exists st1,
      stop_airodump st = (Ok tt, st1)
      /\ glob st1
         = mkGlobals (running (glob st)) None (interface_used (glob st))
                     (output_dir (glob st)) (csv_path (glob st))
      /\ stop_airodump st1
         = (Ok tt, logged st1 (host st1) [EvCall Fn_stop_airodump]).
Proof.
  intros [h0 [r [p|] i o c] l]; unfold stop_airodump, set_airodump_proc;
    crunch; host_cases;
    eexists; (split; [reflexivity|]); simpl; split; reflexivity.
Qed.

(** X7: when the capture tool starts, [start_airodump] records its process
    and waits two seconds; it returns when the wait completes and raises
    what the wait raises, as when an early interrupt cuts it short, and the
    process is on record either way.  The [stop_airodump] that follows asks
    for the process group of that very process, signals the group it is
    given, and clears the record.  The tool is started under sudo, writing
    CSV at the prefix, on the interface, for the band "bg". *)
Theorem start_then_stop :
  forall iface (out_prefix : str) st (p : pid) h,
    os_popen (airodump_cmd iface out_prefix) (host st) = (Returns p, h) ->
    airodump_cmd iface out_prefix
    = [lit "sudo"; lit "airodump-ng"; lit "-w"; out_prefix;
       lit "--output-format"; lit "csv"; iface; lit "--band"; lit "bg"]
    /\ exists st1,
        start_airodump iface out_prefix st
        = (outcome_of (fst (os_sleep 2 h)), st1)
        /\ airodump_proc (glob st1) = Some p
        /\ host st1 = snd (os_sleep 2 h)
        /\ exists st2 evs,
            stop_airodump st1 = (Ok tt, st2)
            /\ log st2
               = log st1 ++ EvCall Fn_stop_airodump :: EvGetpgid p :: evs
            /\ match fst (os_getpgid p (host st1)) with
               | Returns g => evs = [EvKillpg g]
               | Throws _ => evs = []
               end
            /\ airodump_proc (glob st2) = None.
Proof.
  intros iface out_prefix st p h Hp. split; [reflexivity|].
  unfold start_airodump, set_airodump_proc. crunch. rewrite Hp. simpl.
  destruct (os_sleep 2 h) as [[[]|es] hs]; simpl;
    (eexists; split; [reflexivity|]; simpl; do 2 (split; [reflexivity|]);
     unfold stop_airodump, set_airodump_proc; crunch;
     destruct (os_getpgid p hs) as [[g|e] h1]; simpl;
     [ destruct (os_killpg g h1) as [[u|e] h2]; simpl;
       eexists _, _; (split; [reflexivity|]); (split; [log_shape|]);
       split; reflexivity
     | eexists _, _; split; [reflexivity|]; split; [log_shape|];
       split; reflexivity ]).
Qed.

End Capture.

(* ================================================================== *)
(** * More on the interface helpers *)
(* ================================================================== *)

Section Names.

Lemma span_fst (p : codepoint -> bool) (s : str) :
  forallb p (fst (span p s)) = true.
Proof.
  induction s as [|c t IH]; simpl; [reflexivity|].
  destruct (p c) eqn:Hc; [|reflexivity].
  destruct (span p t) as [a b]. simpl in *. now rewrite Hc.
Qed.

Lemma match_interface_at_name (s name : str) (len : nat) :
  Re.match_interface_at s = Some (name, len) -> is_name name.
Proof.
  unfold Re.match_interface_at.
  destruct (strip_prefix (lit "Interface") s) as [t|]; [|discriminate].
  destruct (span isspace t) as [ws t1].
  pose proof (span_fst (fun c => negb (isspace c)) t1) as Hn.
  destruct (span (fun c => negb (isspace c)) t1) as [nm rest].
  destruct ws; [discriminate|]. destruct nm as [|c0 nm]; [discriminate|].
  intros E. injection E as <- _. split; [discriminate | exact Hn].
Qed.

Lemma search_interface_name (s name : str) :
  Re.search_interface s = Some name -> is_name name.
Proof.
  induction s as [|c t IH].
  - discriminate.
  - change (Re.search_interface (c :: t))
      with (match Re.match_interface_at (c :: t) with
            | Some (nm, _) => Some nm
            | None => Re.search_interface t
            end).
    destruct (Re.match_interface_at (c :: t)) as [[nm len]|] eqn:E; [|exact IH].
    intros H. injection H as <-. eapply match_interface_at_name, E.
Qed.

Lemma findall_interface_names (s : str) :
  forall skip, Forall is_name (Re.findall_interface_from skip s).
Proof.
  induction s as [|c t IH]; intros skip; simpl; [constructor|].
  destruct skip; [|apply IH].
  destruct (Re.match_interface_at (c :: t)) as [[nm len]|] eqn:E; [|apply IH].
  constructor; [eapply match_interface_at_name, E | apply IH].
Qed.

Lemma match_iwconfig_at_name (s name : str) (len : nat) :
  Re.match_iwconfig_at s = Some (name, len) -> is_name name.
Proof.
  unfold Re.match_iwconfig_at.
  pose proof (span_fst (fun c => negb (isspace c)) s) as Hn.
  destruct (span (fun c => negb (isspace c)) s) as [nm t1].
  destruct (span isspace t1) as [ws1 t2].
  destruct nm as [|c0 nm]; [discriminate|].
  destruct ws1; [discriminate|].
  destruct (strip_prefix (lit "IEEE") t2) as [t3|]; [|discriminate].
  destruct (span isspace t3) as [ws2 t4].
  destruct ws2; [discriminate|].
  destruct (strip_prefix (lit "802.11") t4); [|discriminate].
  intros E. injection E as <- _. split; [discriminate | exact Hn].
Qed.

Lemma findall_iwconfig_names (s : str) :
  forall skip bol, Forall is_name (Re.findall_iwconfig_from skip bol s).
Proof.
  induction s as [|c t IH]; intros skip bol; simpl; [constructor|].
  destruct skip; [|apply IH].
  destruct bol; [|apply IH].
  destruct (Re.match_iwconfig_at (c :: t)) as [[nm len]|] eqn:E; [|apply IH].
  constructor; [eapply match_iwconfig_at_name, E | apply IH].
Qed.

Lemma first_monitor_interface_name (blocks : list str) (name : str) :
  first_monitor_interface blocks = Some name -> is_name name.
Proof.
  induction blocks as [|blk rest IH]; simpl; [discriminate|].
  destruct (contains (lit "type monitor") blk); [|exact IH].
  destruct (Re.search_interface blk) as [nm|] eqn:E; [|exact IH].
  intros H. injection H as <-. eapply search_interface_name, E.
Qed.

(** ** The blocks of [re.split] *)

Lemma strip_prefix_app (p s r : str) :
  strip_prefix p s = Some r -> s = p ++ r.
Proof.
  revert s. induction p as [|a p IH]; intros s; simpl.
  - intros E. now injection E as ->.
  - destruct s as [|b s]; [discriminate|].
    destruct (N.eqb_spec a b) as [->|]; [|discriminate].
    intros E. now rewrite (IH _ E).
Qed.

Lemma split_blocks_from_head (s : str) :
  forall cur, exists more rest,
      Re.split_blocks_from cur s = (cur ++ more) :: rest.
Proof.
  induction s as [|c t IH]; intros cur; simpl.
  - exists [], []. now rewrite app_nil_r.
  - destruct (N.eqb c Re.newline && Re.lookahead_interface t).
    + exists [], (Re.split_blocks_from [] t). now rewrite app_nil_r.
    + destruct (IH (cur ++ [c])) as (more & rest & ->).
      exists (c :: more), rest. now rewrite <- app_assoc.
Qed.

Lemma split_blocks_from_join (s : str) :
  forall cur, join_lines (Re.split_blocks_from cur s) = cur ++ s.
Proof.
  induction s as [|c t IH]; intros cur; simpl.
  - now rewrite app_nil_r.
  - destruct (N.eqb_spec c Re.newline) as [->|Hc]; simpl.
    + destruct (Re.lookahead_interface t).
      * destruct (split_blocks_from_head t []) as (more & rest & E).
        specialize (IH []). rewrite E in *. simpl in *. now rewrite IH.
      * rewrite IH. now rewrite <- app_assoc.
    + rewrite IH. now rewrite <- app_assoc.
Qed.

Lemma lookahead_interface_prefix (t : str) :
  Re.lookahead_interface t = true ->
  exists r, t = lit "Interface" ++ r.
Proof.
  unfold Re.lookahead_interface.
  destruct (strip_prefix (lit "Interface") t) as [r|] eqn:E; [|discriminate].
  intros _. exists r. now apply strip_prefix_app.
Qed.

Lemma split_blocks_from_tail (s : str) :
  forall cur,
    Forall (fun b => exists r, b = lit "Interface" ++ r)
           (tl (Re.split_blocks_from cur s)).
Proof.
  induction s as [|c t IH]; intros cur; simpl; [constructor|].
  destruct (N.eqb c Re.newline && Re.lookahead_interface t) eqn:E;
    [|apply IH].
  simpl. apply andb_prop in E. destruct E as [_ E].
  destruct (lookahead_interface_prefix t E) as (r & ->).
  specialize (IH []).
  change (Re.split_blocks_from [] (lit "Interface" ++ r))
    with (Re.split_blocks_from (lit "Interface") r) in *.
  destruct (split_blocks_from_head r (lit "Interface")) as (more & rest & H).
  rewrite H in *. simpl in IH. constructor; [|exact IH].
  exists more. reflexivity.
Qed.

(** X8: [re.split] loses nothing: joining the blocks with line feeds gives
    the text back, and every block after the first starts with
    "Interface". *)
Theorem split_blocks_join :
  forall s : str,
    join_lines (Re.split_blocks s) = s
    /\ Forall (fun b => exists r, b = lit "Interface" ++ r)
              (tl (Re.split_blocks s)).
Proof.
  intros s. split.
  - apply (split_blocks_from_join s []).
  - apply split_blocks_from_tail.
Qed.

Lemma split_blocks_from_unsplit (s : str) :
  forall cur,
    no_interface_line s = true ->
    Re.split_blocks_from cur s = [cur ++ s].
Proof.
  induction s as [|c t IH]; intros cur H; simpl in *.
  - now rewrite app_nil_r.
  - apply andb_prop in H. destruct H as [H1 H2].
    apply negb_true_iff in H1. rewrite H1, (IH _ H2).
    now rewrite <- app_assoc.
Qed.

Lemma contains_prefix (a b hay : str) :
  contains (a ++ b) hay = true -> contains a hay = true.
Proof.
  assert (P : forall h, strip_prefix (a ++ b) h <> None ->
                        strip_prefix a h <> None).
  { induction a as [|x a IH]; intros h; simpl; [discriminate|].
    destruct h as [|y h]; [easy|]. destruct (N.eqb x y); [apply IH | easy]. }
  induction hay as [|c hay IH]; simpl.
  - destruct (strip_prefix (a ++ b) []) eqn:E; [|discriminate].
    intros _. specialize (P [] ltac:(rewrite E; discriminate)).
    now destruct (strip_prefix a []).
  - destruct (strip_prefix (a ++ b) (c :: hay)) eqn:E.
    + intros _. specialize (P (c :: hay) ltac:(rewrite E; discriminate)).
      now destruct (strip_prefix a (c :: hay)).
    + intros H. destruct (strip_prefix a (c :: hay)); [reflexivity|].
      apply IH, H.
Qed.

Lemma reports_monitor_prefix (iface suffix out : str) :
  reports_monitor (iface ++ suffix) out = true ->
  reports_monitor iface out = true.
Proof.
  unfold reports_monitor. rewrite !existsb_exists.
  intros (blk & Hin & H). exists blk. split; [exact Hin|].
  apply andb_prop in H. destruct H as [H1 H2]. rewrite H2, andb_true_r.
  apply (contains_prefix _ suffix). now rewrite <- app_assoc.
Qed.

(** ** Occurrences *)
















(** ** The text of [iw dev] is one block *)












End Names.

Section Interface.
Context {Host : Type} {os : OS Host}.

Implicit Types (st : state Host) (iface : str).

Lemma names_head (l : list str) (d : str) (ds : list str) :
  Forall is_name l -> l = d :: ds -> is_name d.
Proof. intros F ->. now inversion F. Qed.

(** X9: looking for an interface only asks: [get_wifi_interface] runs
    [iw dev] and [iwconfig] and nothing else, it changes no mode, starts no
    process and keeps the variables of the program; and a name it returns is
    never empty and holds no white space. *)
Theorem get_wifi_interface_only_asks :
  forall st,
    exists r st1 evs,
      get_wifi_interface st = (r, st1)
      /\ glob st1 = glob st
      /\ log st1 = log st ++ evs
      /\ mode_changes evs = [] /\ popens evs = []
      /\ match r with
         | Ok (Some name) => is_name name
         | Ok None | Raised _ => True
         | Unfinished => False
         end.
Proof.
  intros st.
  unfold get_wifi_interface, detect_interfaces_iwdev,
    detect_interfaces_iwconfig, run_cmd. crunch.
  destruct (os_run iw_dev (host st)) as [[res|e] h]; simpl.
  2:{ eexists _, _, _. split; [reflexivity|]. split; [reflexivity|].
      split; [log_shape|]. repeat split. }
  destruct (first_monitor_interface (Re.split_blocks (strip (stdout res))))
    as [name|] eqn:E1; simpl.
  { eexists _, _, _. split; [reflexivity|]. split; [reflexivity|].
    split; [log_shape|]. do 2 (split; [reflexivity|]).
    eapply first_monitor_interface_name, E1. }
  destruct (os_run iw_dev h) as [[res2|e2] h2]; simpl.
  2:{ eexists _, _, _. split; [reflexivity|]. split; [reflexivity|].
      split; [log_shape|]. repeat split. }
  destruct (Re.findall_interface (stdout res2)) as [|d ds] eqn:E2; simpl.
  2:{ eexists _, _, _. split; [reflexivity|]. split; [reflexivity|].
      split; [log_shape|]. do 2 (split; [reflexivity|]).
      eapply names_head; [apply (findall_interface_names (stdout res2) 0)|].
      exact E2. }
  destruct (os_run (ShellLine (lit "iwconfig 2>/dev/null")) h2)
    as [[res3|e3] h3]; simpl.
  2:{ eexists _, _, _. split; [reflexivity|]. split; [reflexivity|].
      split; [log_shape|]. repeat split. }
  destruct (Re.findall_iwconfig (stdout res3)) as [|c cs] eqn:E3; simpl.
  - eexists _, _, _. split; [reflexivity|]. split; [reflexivity|].
    split; [log_shape|]. repeat split.
  - eexists _, _, _. split; [reflexivity|]. split; [reflexivity|].
    split; [log_shape|]. do 2 (split; [reflexivity|]).
    eapply names_head;
      [apply (findall_iwconfig_names (stdout res3) 0 true) | exact E3].
Qed.

(** Picks the case of the list of commands that was run. *)
Ltac pick_commands :=
  first [ left; reflexivity
        | right; left; reflexivity
        | right; right; reflexivity ].

(** Splits on the answers of the host and on the status of the first
    syntax of the mode change. *)
Ltac command_cases :=
  repeat first
    [ progress host_cases
    | match goal with
      | |- context [negb (Z.eqb ?x 0)] => destruct (negb (Z.eqb x 0)); simpl
      end ].

(** X10: when [enable_monitor_mode] returns, it returns the name it was
    given and has kept the variables of the program; and it has run no
    mode-change command, or link down, set type monitor, link up, or these
    with the second syntax of the mode change before the link up: it never
    returns with the link taken down and not brought up again. *)
Theorem enable_monitor_mode_brings_link_up :
  forall iface st,
    exists evs,
      log (snd (enable_monitor_mode iface st)) = log st ++ evs
      /\ glob (snd (enable_monitor_mode iface st)) = glob st
      /\ match fst (enable_monitor_mode iface st) with
         | Ok name =>
             name = iface
             /\ (mode_changes evs = []
                 \/ mode_changes evs
                    = [EvRun (sudo_ip_link_set iface (lit "down"));
                       EvRun (sudo_iw_set iface [lit "type"; lit "monitor"]);
                       EvRun (sudo_ip_link_set iface (lit "up"))]
                 \/ mode_changes evs
                    = [EvRun (sudo_ip_link_set iface (lit "down"));
                       EvRun (sudo_iw_set iface [lit "type"; lit "monitor"]);
                       EvRun (sudo_iw_set iface [lit "monitor"; lit "none"]);
                       EvRun (sudo_ip_link_set iface (lit "up"))])
         | Raised _ => True
         | Unfinished => False
         end.
Proof.
  intros iface st. unfold enable_monitor_mode, run_cmd, print. crunch.
  destruct (os_run iw_dev (host st)) as [[res|e] h]; simpl;
    [|eexists; split; [log_shape | now split]].
  destruct (reports_monitor iface (stdout res)); simpl; command_cases;
    eexists; (split; [log_shape|]); (split; [reflexivity|]);
    try exact I; (split; [reflexivity | pick_commands]).
Qed.

(** X11: once the first syntax of the mode change has been run, the second
    one is tried exactly when the first ended with a status other than
    zero; its own status is not looked at. *)
Theorem enable_monitor_mode_falls_back :
  forall iface st res h0 hp res1 h1 res2 h2,
    os_run iw_dev (host st) = (Returns res, h0) ->
    reports_monitor iface (stdout res) = false ->
    os_print (note_enabling iface) h0 = (Returns tt, hp) ->
    os_run (sudo_ip_link_set iface (lit "down")) hp = (Returns res1, h1) ->
    os_run (sudo_iw_set iface [lit "type"; lit "monitor"]) h1
    = (Returns res2, h2) ->
    exists evs,
      log (snd (enable_monitor_mode iface st)) = log st ++ evs
      /\ (In (EvRun (sudo_iw_set iface [lit "monitor"; lit "none"])) evs
          <-> returncode res2 <> 0%Z).
Proof.
  intros iface st res h0 hp res1 h1 res2 h2 Hq Hm Hp Hd Hs.
  unfold enable_monitor_mode, run_cmd, print. crunch.
  rewrite Hq. simpl. rewrite Hm. simpl. rewrite Hp. simpl.
  rewrite Hd. simpl. rewrite Hs. simpl.
  destruct (Z.eqb_spec (returncode res2) 0) as [Hz|Hz]; simpl; host_cases;
    eexists; (split; [log_shape|]); simpl; split; intros H;
    first [ exact Hz
          | contradiction
          | solve [repeat (destruct H as [H|H]; [cbv in H; discriminate H|]);
                   contradiction]
          | solve [repeat first [left; reflexivity | right]] ].
Qed.

(** X12: [disable_monitor_mode] does not look at the statuses of its
    commands: when its opening message can be printed and the three
    commands can be run, whatever their statuses, it runs link down, set
    type managed, link up in this order, keeps the variables of the program
    and ends with the [print] that reports the mode restored, returning or
    raising as that [print] does. *)
Theorem disable_monitor_mode_ignores_statuses :
  forall iface st h0 res1 h1 res2 h2 res3 h3,
    os_print (note_restoring iface) (host st) = (Returns tt, h0) ->
    os_run (sudo_ip_link_set iface (lit "down")) h0 = (Returns res1, h1) ->
    os_run (sudo_iw_set iface [lit "type"; lit "managed"]) h1
    = (Returns res2, h2) ->
    os_run (sudo_ip_link_set iface (lit "up")) h2 = (Returns res3, h3) ->
    exists evs,
      disable_monitor_mode iface st
      = (outcome_of (fst (os_print (note_restored iface) h3)),
         logged st (snd (os_print (note_restored iface) h3)) evs)
      /\ mode_changes evs
         = [EvRun (sudo_ip_link_set iface (lit "down"));
            EvRun (sudo_iw_set iface [lit "type"; lit "managed"]);
            EvRun (sudo_ip_link_set iface (lit "up"))]
      /\ last (prints evs) [] = note_restored iface.
Proof.
  intros iface st h0 res1 h1 res2 h2 res3 h3 H0 H1 H2 H3.
  unfold note_restoring, note_restored in *. simpl in H0.
  unfold disable_monitor_mode, run_cmd, print. crunch.
  rewrite H0. simpl. rewrite H1. simpl. rewrite H2. simpl. rewrite H3. simpl.
  host_cases;
    eexists; (split; [unfold logged; f_equal; f_equal; log_shape|]);
    split; reflexivity.
Qed.

(** The test of line 82 succeeds: the function prints its note and returns
    at once, or raises when the note cannot be printed. *)
Lemma enable_monitor_mode_at_once iface st res h :
  os_run iw_dev (host st) = (Returns res, h) ->
  reports_monitor iface (stdout res) = true ->
  enable_monitor_mode iface st
  = (match fst (os_print (note_already iface) h) with
     | Returns _ => Ok iface
     | Throws e => Raised e
     end,
     logged st (snd (os_print (note_already iface) h))
       [EvCall Fn_enable_monitor_mode; EvRun iw_dev;
        EvPrint (note_already iface)]).
Proof.
  intros Hq Hm. unfold enable_monitor_mode, run_cmd, print. crunch.
  rewrite Hq. simpl. rewrite Hm. simpl.
  destruct (os_print (note_already iface) h) as [[[]|e] h1]; simpl;
    unfold logged; f_equal; f_equal; log_shape.
Qed.


(** X13: the test for monitor mode looks for the text "Interface " followed
    by the name anywhere in a block, so a name that is the beginning of the
    name of an interface in monitor mode passes it: for such a name
    [enable_monitor_mode] prints its note and is done, returning the name,
    or raising if the note cannot be printed, and it changes nothing. *)
Theorem enable_monitor_mode_matches_prefix :
  forall iface (suffix : str) st res h,
    os_run iw_dev (host st) = (Returns res, h) ->
    reports_monitor (iface ++ suffix) (stdout res) = true ->
    enable_monitor_mode iface st
    = (match fst (os_print (note_already iface) h) with
       | Returns _ => Ok iface
       | Throws e => Raised e
       end,
       logged st (snd (os_print (note_already iface) h))
         [EvCall Fn_enable_monitor_mode; EvRun iw_dev;
          EvPrint (note_already iface)]).
Proof.
  intros iface suffix st res h Hq Hm.
  apply (enable_monitor_mode_at_once iface st res h Hq).
  exact (reports_monitor_prefix iface suffix (stdout res) Hm).
Qed.

(** X14: where no line of the [iw dev] output starts with "Interface" and a
    white space, as when the lines are indented, the output is one block:
    the test for monitor mode then asks only that the output names the
    interface and that some interface in it is in monitor mode. *)
Theorem reports_monitor_one_block :
  forall iface (out : str),
    no_interface_line (strip out) = true ->
    reports_monitor iface out
    = contains (lit "Interface " ++ iface) (strip out)
      && contains (lit "type monitor") (strip out).
Proof.
  intros iface out H. unfold reports_monitor, Re.split_blocks.
  rewrite (split_blocks_from_unsplit (strip out) [] H). simpl.
  now rewrite orb_false_r.
Qed.

End Interface.

(* ================================================================== *)
(** * More on the run of main *)
(* ================================================================== *)

Section MainRuns.
Context {Host : Type} {os : OS Host}.

Implicit Types (st : state Host) (csv iface folder : str).

Local Arguments try_finally : simpl never.
Local Arguments path_join : simpl never.
Local Arguments lit : simpl never.
Local Arguments airodump_cmd : simpl never.
Local Arguments Re.split_blocks : simpl never.
Local Arguments Re.findall_interface : simpl never.
Local Arguments Re.findall_iwconfig : simpl never.
Local Arguments strip : simpl never.
Local Arguments reports_monitor : simpl never.
Local Arguments first_monitor_interface : simpl never.

(** Splits on everything the initialization asks of the host and on what it
    reads in the answers. *)
Ltac init_cases :=
  repeat (match goal with
          | |- context [os_strftime ?x ?y] =>
              destruct (os_strftime x y) as [?d ?h]
          | |- context [os_makedirs ?x ?y] =>
              destruct (os_makedirs x y) as [[[]|?e] ?h]
          | |- context [os_run ?x ?y] =>
              destruct (os_run x y) as [[?res|?e] ?h]
          | |- context [os_popen ?x ?y] =>
              destruct (os_popen x y) as [[?p|?e] ?h]
          | |- context [os_print ?x ?y] =>
              destruct (os_print x y) as [[[]|?e] ?h]
          | |- context [os_sleep ?x ?y] =>
              destruct (os_sleep x y) as [[[]|?e] ?h]
          | |- context [first_monitor_interface ?x] =>
              destruct (first_monitor_interface x) as [[|?c ?name]|]
          | |- context [Re.findall_interface ?x] =>
              destruct (Re.findall_interface x) as [|[|?c ?name] ?l]
          | |- context [Re.findall_iwconfig ?x] =>
              destruct (Re.findall_iwconfig x) as [|[|?c ?name] ?l]
          | |- context [reports_monitor ?x ?y] =>
              destruct (reports_monitor x y)
          | |- context [negb (Z.eqb ?x 0)] =>
              destruct (negb (Z.eqb x 0))
          end; simpl).

(** X15: how [main] goes.  It ends with an exception before a capture
    process is on record; or it finds no interface, gives the notice to
    [print] and returns, having changed no mode and started no process; or
    it ends with an exception after the capture tool has been started and
    before line 313, as when an interrupt cuts the wait of two seconds
    short or the message of line 310 cannot be printed, and then the process
    stays on record and no cleanup function is entered; or it reaches the
    scan loop, and then the capture tool has been started once, with the
    output prefix "scan" in the folder of the run and on the interface
    found, the file scanned and parsed at the end is that prefix followed
    by "-01.csv", the interface restored at the end is the same one, and
    the process, the interface, the folder and the file are on record in
    the variables of the program. *)
Theorem main_cases :
  forall (fuel : nat) st,
    (exists e st' evs,
        main fuel st = (Raised e, st')
        /\ log st' = log st ++ evs
        /\ airodump_proc (glob st') = airodump_proc (glob st)
        /\ Forall calm evs)
    \/ (exists st' evs,
           main fuel st = (Ok tt, st')
           /\ log st' = log st ++ evs
           /\ last (prints evs) [] = note_no_interface
           /\ mode_changes evs = [] /\ popens evs = []
           /\ Forall calm evs)
    \/ (exists e st' evs (d t name : str) (p : pid),
           let folder := path_join BASE_DIR [d; t] in
           let prefix := path_join folder [lit "scan"] in
           main fuel st = (Raised e, st')
           /\ log st' = log st ++ evs
           /\ popens evs = [airodump_cmd name prefix]
           /\ airodump_proc (glob st') = Some p
           /\ interface_used (glob st') = Some name
           /\ Forall calm evs)
    \/ (exists st0 evs (d t name : str) (p : pid),
           let folder := path_join BASE_DIR [d; t] in
           let prefix := path_join folder [lit "scan"] in
           let csv := prefix ++ lit "-01.csv" in
           main fuel st
           = try_finally (scan_loop fuel csv) (finalize csv folder name) st0
           /\ log st0 = log st ++ evs
           /\ popens evs = [airodump_cmd name prefix]
           /\ Forall calm evs
           /\ name <> []
           /\ glob st0
              = mkGlobals (running (glob st)) (Some p) (Some name)
                          (Some folder) (Some csv)).
Proof.
  intros fuel st.
  unfold main, get_wifi_interface, detect_interfaces_iwdev,
    detect_interfaces_iwconfig, enable_monitor_mode, start_airodump,
    set_airodump_proc, set_output_dir, set_interface_used, set_csv_path,
    run_cmd, print.
  crunch. init_cases;
    first
      [ left; eexists _, _, _; split; [reflexivity|];
        split; [log_shape|]; split; [reflexivity | quiet_solve]
      | right; left; eexists _, _; split; [reflexivity|];
        split; [log_shape|]; split; [reflexivity|];
        split; [reflexivity|]; split; [reflexivity | quiet_solve]
      | right; right; left; eexists _, _, _, _, _, _, _;
        split; [reflexivity|]; split; [log_shape|]; split; [reflexivity|];
        split; [reflexivity|]; split; [reflexivity | quiet_solve]
      | right; right; right; eexists _, _, _, _, _, _; split; [reflexivity|];
        split; [log_shape|]; split; [reflexivity|];
        split; [quiet_solve|]; split; [discriminate | reflexivity] ].
Qed.

End MainRuns.

Section MainInvariants.
Context {Host : Type} {os : OS Host}.

Implicit Types (st : state Host) (csv iface folder : str).

(** X16: in a run of [main] that ends, [stop_airodump] is entered at most
    once and [disable_monitor_mode] at most once, and the restoration is
    never entered without the stop: none of the two when the run ends
    before line 313, the stop alone when the report step of the [finally]
    block raises, and both otherwise.  Where the standard output takes
    every text, they are entered together. *)
Theorem main_cleanup_paired :
  forall (fuel : nat) st r st',
    main fuel st = (r, st') ->
    r <> Unfinished ->
    exists a b : nat,
      calls Fn_stop_airodump (log st') = calls Fn_stop_airodump (log st) + a
      /\ calls Fn_disable_monitor_mode (log st')
         = calls Fn_disable_monitor_mode (log st) + b
      /\ b <= a /\ a <= 1
      /\ (stdout_works -> b = a).
Proof.
  intros fuel st r st' Hm Hr.
  destruct (main_run fuel st)
    as [(_ & evs & L & C) | (st0 & csv & folder & iface & evs & E & L & C)].
  - exists 0, 0. rewrite Hm in L. simpl in L.
    destruct (calm_calls _ C) as [A B]. rewrite L, !calls_app, A, B.
    repeat split; lia.
  - destruct (calm_calls _ C) as [A B].
    destruct (scan_loop_calm fuel csv st0) as (evs1 & L1 & C1).
    destruct (calm_calls _ C1) as [A1 B1].
    rewrite Hm in E. unfold try_finally in E.
    destruct (scan_loop fuel csv st0) as [r0 st1]. simpl in L1.
    destruct (finalize_calls csv folder iface st1)
      as (r2 & st2 & b & F & F2 & A2 & B2 & Hb & Hok & W).
    assert (S : st' = st2).
    { destruct r0 as [[]|e|]; unfold bind in E; rewrite ?F in E.
      - destruct r2; now injection E.
      - destruct r2; now injection E.
      - injection E as -> _. now elim Hr. }
    subst st'. exists 1, b.
    rewrite A2, B2, L1, !calls_app, A1, B1, L, !calls_app, A, B.
    split; [lia|]. split; [lia|]. split; [exact Hb|]. split; [lia|].
    intros W'. apply Hok, W, W'.
Qed.

Lemma adds_try_finally {A} (P : event -> Prop) (body : M Host A)
    (cleanup : M Host unit) :
  adds P body -> adds P cleanup -> adds P (try_finally body cleanup).
Proof.
  intros Hb Hc st. destruct (Hb st) as (evs1 & L1 & F1). unfold try_finally.
  destruct (body st) as [[a|e|] st1]; simpl in L1.
  - destruct (adds_bind P cleanup (fun _ => ret a) Hc
                (fun _ => adds_ret P a) st1) as (evs2 & L2 & F2).
    exists (evs1 ++ evs2). rewrite L2, L1, app_assoc.
    split; [reflexivity | now apply Forall_app].
  - destruct (adds_bind P cleanup (fun _ => @raise Host A e) Hc
                (fun _ => adds_raise P e) st1) as (evs2 & L2 & F2).
    exists (evs1 ++ evs2). rewrite L2, L1, app_assoc.
    split; [reflexivity | now apply Forall_app].
  - exists evs1. now split.
Qed.

Lemma parse_forwards (path : option str) :
  adds forwards_records (parse_airodump_csv path).
Proof. unfold parse_airodump_csv. adds_steps. Qed.

Lemma scan_loop_forwards (fuel : nat) csv :
  adds forwards_records (scan_loop fuel csv).
Proof.
  induction fuel as [|fuel IH]; simpl.
  - now apply adds_nothing.
  - apply adds_bind;
      [unfold deliver_sigint, on_sigint, set_running, print; adds_steps
      | intros _].
    apply adds_bind; [apply adds_get_globals | intros g].
    destruct (running g); [|apply adds_ret].
    apply adds_bind; [|intros _; exact IH].
    unfold scan_iteration, print_live_table.
    apply adds_bind; [adds_steps | intros _].
    apply adds_bind; [adds_steps | intros ex].
    apply adds_bind; [|intros _; adds_steps].
    destruct ex; [|apply adds_ret].
    apply adds_bind; [apply parse_forwards | intros nets].
    destruct nets; adds_steps.
Qed.

Lemma finalize_forwards csv folder iface :
  adds forwards_records (finalize csv folder iface).
Proof.
  unfold finalize.
  apply adds_bind;
    [unfold stop_airodump, set_airodump_proc; adds_steps | intros _].
  apply adds_bind; [|intros _].
  - unfold report_step, generate_pdf, print.
    apply adds_try_except; [|intros e; adds_steps].
    apply adds_bind; [adds_steps | intros _].
    apply adds_bind; [adds_steps | intros ex].
    destruct ex; [|apply adds_ret].
    apply adds_bind; [apply parse_forwards | intros nets].
    destruct nets; adds_steps.
  - unfold restore_step, disable_monitor_mode, run_cmd, print. adds_steps.
Qed.

Lemma main_forwards (fuel : nat) : adds forwards_records (main fuel).
Proof.
  unfold main, get_wifi_interface, detect_interfaces_iwdev,
    detect_interfaces_iwconfig, enable_monitor_mode, start_airodump,
    set_airodump_proc, set_output_dir, set_interface_used, set_csv_path,
    run_cmd, print.
  adds_steps;
    (apply adds_try_finally;
     [apply scan_loop_forwards | apply finalize_forwards]).
Qed.

(** X17: in every run of [main], the live view and the report are only ever
    given at least one record: [print_live_table] and [generate_pdf] are
    never called with an empty list. *)
Theorem main_forwards_records :
  forall (fuel : nat) st,
    exists evs,
      log (snd (main fuel st)) = log st ++ evs
      /\ Forall forwards_records evs
      /\ ~ In [] (live_tables evs)
      /\ (forall folder iface, ~ In ([], folder, iface) (reports evs)).
Proof.
  intros fuel st. destruct (main_forwards fuel st) as (evs & L & F).
  exists evs. split; [exact L|]. split; [exact F|].
  clear L. unfold live_tables, reports.
  induction F as [|ev evs Hev _ [IH1 IH2]]; [split; [easy | now intros]|].
  split.
  - simpl. rewrite in_app_iff. intros [H|H]; [|now apply IH1].
    destruct ev; simpl in H; try easy.
    destruct H as [H|[]]. subst. exact Hev.
  - intros folder iface. simpl. rewrite in_app_iff.
    intros [H|H]; [|now apply (IH2 folder iface)].
    destruct ev; simpl in H; try easy.
    destruct H as [H|[]]. injection H as H _ _. subst. exact Hev.
Qed.

End MainInvariants.

(* ================================================================== *)
(** * The scan loop, the live view and the tally *)
(* ================================================================== *)

Section ScanLoop.
Context {Host : Type} {os : OS Host}.


End ScanLoop.

Section LiveView.

Lemma length_ljust (w : nat) (s : str) :
  length (ljust w s) = Nat.max w (length s).
Proof. unfold ljust. rewrite length_app, repeat_length. lia. Qed.

Lemma length_live_table_format (c1 c2 c3 c4 c5 c6 : str) :
  length (live_table_format c1 c2 c3 c4 c5 c6)
  = Nat.max 20 (length c1) + Nat.max 28 (length c2) + Nat.max 7 (length c3)
    + Nat.max 8 (length c4) + Nat.max 7 (length c5) + Nat.max 5 (length c6)
    + 5.
Proof.
  unfold live_table_format. rewrite !length_app, !length_ljust.
  change (length (lit " ")) with 1. lia.
Qed.

(** X19: the live view shows at most 80 networks: it prints the title, the
    column heads, the rule, one line for each of the first 80 records in
    their order, and the closing hint. *)
Theorem live_table_texts_count :
  forall networks : list network,
    length (live_table_texts networks) = 4 + Nat.min 80 (length networks)
    /\ firstn (Nat.min 80 (length networks)) (skipn 3 (live_table_texts networks))
       = map live_table_row (firstn 80 networks).
Proof.
  intros networks. unfold live_table_texts. split.
  - rewrite !length_app, length_map, length_firstn. simpl. lia.
  - change (skipn 3 _)
      with (map live_table_row (firstn 80 networks)
            ++ [[10%N] ++ lit "Press CTRL+C to stop & generate PDF report."]).
    rewrite <- (length_firstn 80 networks),
      <- (length_map live_table_row (firstn 80 networks)).
    rewrite firstn_app, Nat.sub_diag, firstn_all. simpl.
    now rewrite app_nil_r.
Qed.

(** X20: the columns of the live view line up: the column heads and the
    rule are 80 characters wide, the line of a record is never narrower, the
    name takes 28 columns however long it is, and the line is exactly 80
    characters wide when the other fields fit their columns. *)
Theorem live_table_row_width :
  forall n : network,
    length (live_table_format (lit "BSSID") (lit "SSID") (lit "CH")
              (lit "Privacy") (lit "Auth") (lit "PWR")) = 80
    /\ length (repeat 45%N 80) = 80
    /\ length (ljust 28 (firstn 28 (SSID n))) = 28
    /\ 80 <= length (live_table_row n)
    /\ (length (BSSID n) <= 20 -> length (Channel n) <= 7 ->
        length (Privacy n) <= 8 -> length (Auth n) <= 7 ->
        length (Power n) <= 5 ->
        length (live_table_row n) = 80).
Proof.
  intros n. split; [reflexivity|]. split; [reflexivity|].
  assert (H28 : length (firstn 28 (SSID n)) <= 28)
    by (rewrite length_firstn; lia).
  split; [rewrite length_ljust; lia|].
  unfold live_table_row. rewrite length_live_table_format.
  split; [lia|]. intros. lia.
Qed.

End LiveView.

Section Tally.

Lemma counter_get_add (k k' : str) (c : list (str * nat)) :
  counter_get (counter_add k c) k'
  = counter_get c k' + (if str_eq_dec k' k then 1 else 0).
Proof.
  induction c as [|[k0 n] c IH]; simpl.
  - destruct (str_eq_dec k' k); reflexivity.
  - destruct (str_eq_dec k k0) as [->|Hk]; simpl.
    + destruct (str_eq_dec k' k0); lia.
    + destruct (str_eq_dec k' k0) as [->|Hk'].
      * destruct (str_eq_dec k0 k) as [->|]; [now elim Hk | lia].
      * exact IH.
Qed.

Lemma counter_keys_add (k : str) (c : list (str * nat)) :
  NoDup (map fst c) ->
  NoDup (map fst (counter_add k c))
  /\ (forall k', In k' (map fst (counter_add k c))
                 <-> k' = k \/ In k' (map fst c)).
Proof.
  induction c as [|[k0 n] c IH]; simpl; intros H.
  - split; [repeat constructor; easy | intros k'; intuition].
  - inversion H as [|x l Hn Hc]; subst.
    destruct (str_eq_dec k k0) as [->|Hk]; simpl.
    + split; [exact H | intros k'; intuition].
    + destruct (IH Hc) as [N I]. split.
      * constructor; [|exact N]. rewrite I. intros [E|E]; [|easy].
        now elim Hk.
      * intros k'. rewrite I. intuition.
Qed.

Lemma tally_total_add (k : str) (c : list (str * nat)) :
  tally_total (counter_add k c) = S (tally_total c).
Proof.
  induction c as [|[k0 n] c IH]; simpl; [reflexivity|].
  destruct (str_eq_dec k k0); simpl; [lia | rewrite IH; lia].
Qed.

Lemma counter_fold (l : list str) :
  forall c,
    NoDup (map fst c) ->
    let c' := fold_left (fun c k => counter_add k c) l c in
    NoDup (map fst c')
    /\ tally_total c' = tally_total c + length l
    /\ (forall k, counter_get c' k
                  = counter_get c k + count_occ str_eq_dec l k)
    /\ (forall k, In k (map fst c') <-> In k (map fst c) \/ In k l).
Proof.
  induction l as [|x l IH]; intros c H; simpl.
  - repeat split; try lia; intuition.
  - destruct (counter_keys_add x c H) as [N I].
    destruct (IH (counter_add x c) N) as (N' & T & G & K).
    split; [exact N'|]. split; [rewrite T, tally_total_add; lia|].
    split.
    + intros k. rewrite G, counter_get_add.
      destruct (str_eq_dec x k) as [->|Hx].
      * destruct (str_eq_dec k k); [lia | easy].
      * destruct (str_eq_dec k x) as [->|]; [now elim Hx | lia].
    + intros k. rewrite K, I. intuition.
Qed.

(** X21: the tally of the encryption chart counts every record that has a
    privacy value, under that value: its keys are pairwise distinct and are
    the non-empty privacy values present, the count of a value is the number
    of records that have it, an empty value counts nothing, and the counts
    add up to the number of records with a privacy value. *)
Theorem priv_counts_tally :
  forall networks : list network,
    NoDup (map fst (priv_counts networks))
    /\ tally_total (priv_counts networks)
       = length (filter (fun n => truthy (Privacy n)) networks)
    /\ (forall k,
           counter_get (priv_counts networks) k
           = if truthy k
             then count_occ str_eq_dec (map Privacy networks) k
             else 0)
    /\ (forall k,
           In k (map fst (priv_counts networks))
           <-> k <> [] /\ In k (map Privacy networks)).
Proof.
  intros networks. unfold priv_counts, counter.
  destruct (counter_fold (filter truthy (map Privacy networks)) []
              (NoDup_nil _)) as (N & T & G & K).
  split; [exact N|]. split; [|split].
  - rewrite T. simpl. clear.
    induction networks as [|n l IH]; simpl; [reflexivity|].
    destruct (truthy (Privacy n)); simpl; now rewrite IH.
  - intros k. rewrite G. simpl. clear.
    induction networks as [|n l IH]; simpl; [now destruct (truthy k)|].
    destruct (truthy (Privacy n)) eqn:Hn; simpl.
    + destruct (str_eq_dec (Privacy n) k) as [<-|]; rewrite IH;
        [now rewrite Hn | reflexivity].
    + rewrite IH. destruct (str_eq_dec (Privacy n) k) as [<-|];
        [now rewrite Hn | reflexivity].
  - intros k. rewrite K, filter_In. simpl. split.
    + intros [[]|[H1 H2]]. split; [now destruct k | exact H1].
    + intros [H1 H2]. right. split; [exact H2 | now destruct k].
Qed.

End Tally.

(* ================================================================== *)
(** * More runs on the simulated host *)
(* ================================================================== *)

Section MoreRuns.

Lemma read_rows_without_header_run :
  fst (read_rows (rows_then [Sim.home; Sim.cafe; Sim.station_header] Eof)
         false []) = [].
Proof. apply read_rows_without_header. vm_compute. reflexivity. Defined.

Lemma read_rows_stops_at_station_header_run :
  read_rows (rows_then [Sim.ap_header; Sim.home]
               (Row Sim.station_header (ReadError Sim.os_error))) false []
  = read_rows (rows_then [Sim.ap_header; Sim.home] Eof) false [].
Proof.
  apply read_rows_stops_at_station_header. vm_compute. reflexivity.
Defined.

Lemma start_then_stop_run :
  exists st1,
    start_airodump Sim.wlan0 (lit "/tmp/scan") (Sim.start Sim.fresh)
    = (Ok tt, st1)
    /\ airodump_proc (glob st1) = Some 4242%N.
Proof.
  assert (Hp : os_popen (airodump_cmd Sim.wlan0 (lit "/tmp/scan"))
                 (host (Sim.start Sim.fresh))
               = (Returns 4242%N, Sim.fresh))
    by (vm_compute; reflexivity).
  destruct (start_then_stop Sim.wlan0 (lit "/tmp/scan") (Sim.start Sim.fresh)
              4242%N Sim.fresh Hp) as (_ & st1 & E & P & _).
  exists st1. split; [exact E | exact P].
Defined.

Lemma enable_monitor_mode_falls_back_run :
  exists evs,
    log (snd (enable_monitor_mode Sim.wlan0 (Sim.start Sim.stubborn)))
    = [] ++ evs
    /\ In (EvRun (sudo_iw_set Sim.wlan0 [lit "monitor"; lit "none"])) evs.
Proof.
  assert (Hq : os_run iw_dev (host (Sim.start Sim.stubborn))
               = (Returns (mkCompleted 0
                             (Sim.render_iw_dev [(Sim.wlan0, false)]) []),
                  Sim.stubborn))
    by (vm_compute; reflexivity).
  assert (Hm : reports_monitor Sim.wlan0
                 (stdout (mkCompleted 0
                            (Sim.render_iw_dev [(Sim.wlan0, false)]) []))
               = false)
    by (vm_compute; reflexivity).
  assert (Hp : os_print (note_enabling Sim.wlan0) Sim.stubborn
               = (Returns tt, Sim.stubborn))
    by (vm_compute; reflexivity).
  assert (Hd : os_run (sudo_ip_link_set Sim.wlan0 (lit "down")) Sim.stubborn
               = (Returns (mkCompleted 0 [] []), Sim.stubborn))
    by (vm_compute; reflexivity).
  assert (Hs : os_run (sudo_iw_set Sim.wlan0 [lit "type"; lit "monitor"])
                 Sim.stubborn
               = (Returns (mkCompleted 1 [] []), Sim.stubborn))
    by (vm_compute; reflexivity).
  destruct (enable_monitor_mode_falls_back Sim.wlan0 (Sim.start Sim.stubborn)
              _ _ _ _ _ _ _ Hq Hm Hp Hd Hs) as (evs & L & I).
  exists evs. split; [exact L|]. apply I. discriminate.
Defined.

Lemma disable_monitor_mode_ignores_statuses_run :
  exists evs,
    disable_monitor_mode Sim.wlan0 (Sim.start Sim.stubborn)
    = (Ok tt, logged (Sim.start Sim.stubborn) Sim.stubborn evs).
Proof.
  assert (H0 : os_print (note_restoring Sim.wlan0)
                 (host (Sim.start Sim.stubborn))
               = (Returns tt, Sim.stubborn))
    by (vm_compute; reflexivity).
  assert (H1 : os_run (sudo_ip_link_set Sim.wlan0 (lit "down")) Sim.stubborn
               = (Returns (mkCompleted 0 [] []), Sim.stubborn))
    by (vm_compute; reflexivity).
  assert (H2 : os_run (sudo_iw_set Sim.wlan0 [lit "type"; lit "managed"])
                 Sim.stubborn
               = (Returns (mkCompleted 1 [] []), Sim.stubborn))
    by (vm_compute; reflexivity).
  assert (H3 : os_run (sudo_ip_link_set Sim.wlan0 (lit "up")) Sim.stubborn
               = (Returns (mkCompleted 0 [] []), Sim.stubborn))
    by (vm_compute; reflexivity).
  destruct (disable_monitor_mode_ignores_statuses Sim.wlan0
              (Sim.start Sim.stubborn) _ _ _ _ _ _ _ H0 H1 H2 H3)
    as (evs & E & _).
  exists evs. exact E.
Defined.

Lemma enable_monitor_mode_matches_prefix_run :
  enable_monitor_mode Sim.wlan0 (Sim.start Sim.renamed)
  = (Ok Sim.wlan0,
     logged (Sim.start Sim.renamed) Sim.renamed
       [EvCall Fn_enable_monitor_mode; EvRun iw_dev;
        EvPrint (note_already Sim.wlan0)]).
Proof.
  assert (Hq : os_run iw_dev (host (Sim.start Sim.renamed))
               = (Returns (mkCompleted 0
                             (Sim.render_iw_dev [(lit "wlan0mon", true)]) []),
                  Sim.renamed))
    by (vm_compute; reflexivity).
  assert (Hm : reports_monitor (Sim.wlan0 ++ lit "mon")
                 (stdout (mkCompleted 0
                            (Sim.render_iw_dev [(lit "wlan0mon", true)]) []))
               = true)
    by (vm_compute; reflexivity).
  exact (enable_monitor_mode_matches_prefix Sim.wlan0 (lit "mon")
           (Sim.start Sim.renamed) _ _ Hq Hm).
Defined.


Lemma reports_monitor_one_block_run :
  reports_monitor Sim.wlan0 (Sim.render_iw_dev (Sim.ifaces Sim.two_interfaces))
  = contains (lit "Interface " ++ Sim.wlan0)
      (strip (Sim.render_iw_dev (Sim.ifaces Sim.two_interfaces)))
    && contains (lit "type monitor")
         (strip (Sim.render_iw_dev (Sim.ifaces Sim.two_interfaces))).
Proof.
  apply reports_monitor_one_block. vm_compute. reflexivity.
Defined.

Lemma main_cleanup_paired_run :
  exists a b : nat,
    calls Fn_stop_airodump (log (snd (main 5 (Sim.start Sim.no_report))))
    = calls Fn_stop_airodump (log (Sim.start Sim.no_report)) + a
    /\ calls Fn_disable_monitor_mode
         (log (snd (main 5 (Sim.start Sim.no_report))))
       = calls Fn_disable_monitor_mode (log (Sim.start Sim.no_report)) + b
    /\ b = a.
Proof.
  destruct (main_cleanup_paired 5 (Sim.start Sim.no_report)
              (fst (main 5 (Sim.start Sim.no_report)))
              (snd (main 5 (Sim.start Sim.no_report))))
    as (a & b & A & B & _ & _ & W).
  - apply surjective_pairing.
  - vm_compute. discriminate.
  - exists a, b. split; [exact A|]. split; [exact B|].
    apply W, sim_stdout_works.
Defined.


(** An interrupt during the wait of line 120, before the handler is
    installed: the run ends with [KeyboardInterrupt], the capture process
    is on record and running, and no cleanup function is entered. *)
Lemma main_early_interrupt_run :
  let (r, st') := main 5 (Sim.rough_start (Sim.hasty Sim.fresh)) in
  r = Raised Sim.keyboard_interrupt
  /\ airodump_proc (glob st') = Some 4242%N
  /\ calls Fn_stop_airodump (log st') = 0
  /\ calls Fn_disable_monitor_mode (log st') = 0
  /\ Sim.ifaces (Sim.inner (host st')) = [(Sim.wlan0, true)].
Proof. vm_compute. repeat split. Qed.

Lemma live_table_row_width_run :
  length (live_table_row (network_of_row Sim.home)) = 80.
Proof.
  destruct (live_table_row_width (network_of_row Sim.home))
    as (_ & _ & _ & _ & H).
  apply H; vm_compute; lia.
Defined.

End MoreRuns.
